(** * kopf.on: the registration decorators of the operator framework

    A shallow embedding of [src/kopf/on.py].  Every decorator of that module
    validates its filters, resolves a registry, derives an id, builds a
    handler record and appends it to the registry; the embedding keeps that
    order of steps, with the registry objects in an explicit store and the
    raised exceptions in an error monad.

    on.py imports its helpers from modules that are not part of the sources
    at hand ([registries], [handlers], [handling], [dicts], [filters]).  The
    two helper functions it calls, [generate_id] and [parse_field], are an
    interface here ([Externals]); the decorators are defined and most of the
    theorems are proved for every implementation of it.  The instance that
    follows the written specification is given separately.  The handler
    classes it constructs are an interface too ([Handlers]), with two
    instances: the classes as plain records of their keyword arguments,
    and the classes with the initialiser of the framework. *)

From Stdlib Require Import ZArith PrimFloat Ascii String.
From stdpp Require Import ssreflect base option list strings gmap.

Local Open Scope string_scope.
Local Open Scope list_scope.

(** ** Values passed through the decorators *)

(** A Python function object: its reference and its declared name.  The
    decorators never call it; they store it and hand it back. *)
Record Callback := {
  address : nat;
  declared_name : string;
}.

(** [errors_.ErrorsMode]. *)
Inductive ErrorsMode := IGNORED | TEMPORARY | PERMANENT.

(** [causation.Activity] and [causation.Reason], as on.py names them. *)
Inductive Activity := STARTUP | CLEANUP | AUTHENTICATION | PROBE.
Inductive Reason := CREATE | UPDATE | DELETE.

(** [resources.Resource(group, version, plural)]. *)
Record Resource := {
  group : string;
  version : string;
  plural : string;
}.

#[global] Instance Resource_eq_dec : EqDecision Resource.
Proof. solve_decision. Defined.

#[global] Instance Resource_countable : Countable Resource.
Proof.
  refine (inj_countable'
            (fun r => (group r, version r, plural r))
            (fun t => {| group := t.1.1; version := t.1.2; plural := t.2 |}) _).
  by intros [].
Defined.

(** One match rule of a label or annotation filter.  [MetaNone] is Python's
    [None], the old way to ask for absence. *)
Inductive MetaFilterValue :=
| MetaNone
| MetaLiteral (value : string)
| MetaPresent
| MetaAbsent
| MetaCallback (predicate : Callback).

Abbreviation MetaFilter := (gmap string MetaFilterValue).

(** [dicts.FieldSpec]: a dotted string or a sequence already split. *)
Inductive FieldSpec :=
| FieldString (dotted : string)
| FieldSequence (segments : list string).

Abbreviation FieldPath := (list string).

(** ** Handler records

    The three classes of [handlers], with the keyword arguments on.py
    constructs them with.  A record is the keyword arguments of one
    constructor call, and also the object that the call gives. *)

Module ActivityHandler.
Record t := {
  fn : Callback;
  id : string;
  errors : option ErrorsMode;
  timeout : option float;
  retries : option Z;
  backoff : option float;
  cooldown : option float;
  activity : Activity;
}.
End ActivityHandler.

Module ResourceWatchingHandler.
Record t := {
  fn : Callback;
  id : string;
  errors : option ErrorsMode;
  timeout : option float;
  retries : option Z;
  backoff : option float;
  cooldown : option float;
  labels : option MetaFilter;
  annotations : option MetaFilter;
  when : option Callback;
}.
End ResourceWatchingHandler.

Module ResourceChangingHandler.
Record t := {
  fn : Callback;
  id : string;
  field : option FieldPath;
  errors : option ErrorsMode;
  timeout : option float;
  retries : option Z;
  backoff : option float;
  cooldown : option float;
  labels : option MetaFilter;
  annotations : option MetaFilter;
  when : option Callback;
  initial : option bool;
  deleted : option bool;
  requires_finalizer : option bool;
  reason : option Reason;
}.
End ResourceChangingHandler.

(** [handlers.BaseHandler]: any of the three. *)
Inductive BaseHandler :=
| OfActivity (h : ActivityHandler.t)
| OfResourceWatching (h : ResourceWatchingHandler.t)
| OfResourceChanging (h : ResourceChangingHandler.t).

Definition handler_id (h : BaseHandler) : string :=
  match h with
  | OfActivity a => ActivityHandler.id a
  | OfResourceWatching w => ResourceWatchingHandler.id w
  | OfResourceChanging c => ResourceChangingHandler.id c
  end.

Definition handler_fn (h : BaseHandler) : Callback :=
  match h with
  | OfActivity a => ActivityHandler.fn a
  | OfResourceWatching w => ResourceWatchingHandler.fn w
  | OfResourceChanging c => ResourceChangingHandler.fn c
  end.

Definition handler_backoff (h : BaseHandler) : option float :=
  match h with
  | OfActivity a => ActivityHandler.backoff a
  | OfResourceWatching w => ResourceWatchingHandler.backoff w
  | OfResourceChanging c => ResourceChangingHandler.backoff c
  end.

Definition handler_cooldown (h : BaseHandler) : option float :=
  match h with
  | OfActivity a => ActivityHandler.cooldown a
  | OfResourceWatching w => ResourceWatchingHandler.cooldown w
  | OfResourceChanging c => ResourceChangingHandler.cooldown c
  end.

(** ** Registries *)

(** [registries.OperatorRegistry]: the flat activity list and the two
    indices by resource. *)
Record OperatorRegistry := {
  activity_handlers : list ActivityHandler.t;
  resource_watching_handlers : gmap Resource (list ResourceWatchingHandler.t);
  resource_changing_handlers : gmap Resource (list ResourceChangingHandler.t);
}.

Definition empty_registry : OperatorRegistry :=
  {| activity_handlers := [];
     resource_watching_handlers := ∅;
     resource_changing_handlers := ∅ |}.

(** A reference to an [OperatorRegistry] object: the one that
    [get_default_registry] hands out, or one the caller constructed. *)
Inductive RegistryRef :=
| DefaultRegistry
| OwnRegistry (address : nat).

#[global] Instance RegistryRef_eq_dec : EqDecision RegistryRef.
Proof. solve_decision. Defined.

#[global] Instance RegistryRef_countable : Countable RegistryRef.
Proof.
  refine (inj_countable'
            (fun r => match r with DefaultRegistry => None | OwnRegistry a => Some a end)
            (fun o => match o with None => DefaultRegistry | Some a => OwnRegistry a end) _).
  by intros [].
Defined.

(** A reference to a [registries.ResourceChangingRegistry] object, the
    list-like registry that [this] appends to. *)
Abbreviation SubRegistryRef := nat.

(** ** The world the decorators run in *)

Inductive WarningCategory := DeprecationWarning.

Record Warning := {
  message : string;
  category : WarningCategory;
  stacklevel : Z;
}.

(** The registry objects, the two context variables of [handling], and the
    warnings issued so far.  A registry object nothing was appended to yet
    has no entry in its store.  A context variable is [None] while it is
    not set; [handler_var] may also be set to Python's [None]. *)
Record World := {
  operator_registries : gmap RegistryRef OperatorRegistry;
  changing_registries : gmap SubRegistryRef (list ResourceChangingHandler.t);
  handler_var : option (option BaseHandler);
  subregistry_var : option SubRegistryRef;
  issued_warnings : list Warning;
}.

Definition registry_at (w : World) (r : RegistryRef) : OperatorRegistry :=
  default empty_registry (operator_registries w !! r).

Definition activities_at (w : World) (r : RegistryRef) : list ActivityHandler.t :=
  activity_handlers (registry_at w r).

Definition watching_at (w : World) (r : RegistryRef) (k : Resource)
  : list ResourceWatchingHandler.t :=
  default [] (resource_watching_handlers (registry_at w r) !! k).

Definition changing_at (w : World) (r : RegistryRef) (k : Resource)
  : list ResourceChangingHandler.t :=
  default [] (resource_changing_handlers (registry_at w r) !! k).

Definition subregistry_at (w : World) (s : SubRegistryRef)
  : list ResourceChangingHandler.t :=
  default [] (changing_registries w !! s).

Definition with_operator_registry (r : RegistryRef) (o : OperatorRegistry) (w : World)
  : World :=
  {| operator_registries := <[r := o]> (operator_registries w);
     changing_registries := changing_registries w;
     handler_var := handler_var w;
     subregistry_var := subregistry_var w;
     issued_warnings := issued_warnings w |}.

(** ** Exceptions and state *)

(** [LookupError]: [ContextVar.get] on a variable that is not set.
    [TypeError]: a handler class that refuses its arguments. *)
Inductive Exception :=
| LookupError (variable : string)
| TypeError (message : string).

Definition M (A : Type) : Type := World -> (Exception + A) * World.

#[global] Instance M_ret : MRet M := fun A a w => (inr a, w).

#[global] Instance M_bind : MBind M := fun A B f m w =>
  match m w with
  | (inl e, w') => (inl e, w')
  | (inr a, w') => f a w'
  end.

(** [for x in items: body(x)]. *)
Fixpoint for_each {A} (items : list A) (body : A -> M unit) : M unit :=
  match items with
  | [] => mret tt
  | x :: rest => body x ;; for_each rest body
  end.

(** ** What on.py calls in the modules around it *)

(** A step that only changes the world. *)
Definition modify (f : World -> World) : M unit := fun w => (inr tt, f w).

(** The world with more warnings issued. *)
Definition with_warnings (ws : list Warning) (w : World) : World :=
  {| operator_registries := operator_registries w;
     changing_registries := changing_registries w;
     handler_var := handler_var w;
     subregistry_var := subregistry_var w;
     issued_warnings := issued_warnings w ++ ws |}.

(** [warnings.warn(message, category, stacklevel=...)]: the warning is
    recorded and the caller goes on. *)
Definition warnings_warn (message : string) (category : WarningCategory) (stacklevel : Z)
  : M unit :=
  modify (with_warnings
            [{| message := message; category := category; stacklevel := stacklevel |}]).

(** Modelled from the spec: the two context variables of [handling], whose
    declarations are not in the sources.  They hold the handler being
    executed and its sub-registry during an invocation; read outside of
    one, when nothing was set, [ContextVar.get] fails with [LookupError]. *)
Definition handler_var_get : M (option BaseHandler) := fun w =>
  match handler_var w with
  | Some current => (inr current, w)
  | None => (inl (LookupError "handler_var"), w)
  end.

(** [handling.subregistry_var.get()]. *)
Definition subregistry_var_get : M SubRegistryRef := fun w =>
  match subregistry_var w with
  | Some current => (inr current, w)
  | None => (inl (LookupError "subregistry_var"), w)
  end.

(** Modelled from the spec: [registries.get_default_registry], which is not
    in the sources.  The default registry is one process-wide instance,
    made on first use and handed to every call that names no registry of
    its own; nothing tells the moment it was made, so it is the object at
    [DefaultRegistry], empty until something is appended. *)
Definition get_default_registry : M RegistryRef := mret DefaultRegistry.

(** The world after [handler] is put at the end of a list of a registry.
    The list of a resource met for the first time starts empty. *)
Definition add_activity (r : RegistryRef) (handler : ActivityHandler.t) (w : World)
  : World :=
  let o := registry_at w r in
  with_operator_registry r
    {| activity_handlers := activity_handlers o ++ [handler];
       resource_watching_handlers := resource_watching_handlers o;
       resource_changing_handlers := resource_changing_handlers o |} w.

Definition add_resource_watching
    (r : RegistryRef) (k : Resource) (handler : ResourceWatchingHandler.t) (w : World)
  : World :=
  let o := registry_at w r in
  with_operator_registry r
    {| activity_handlers := activity_handlers o;
       resource_watching_handlers :=
         <[k := default [] (resource_watching_handlers o !! k) ++ [handler]]>
           (resource_watching_handlers o);
       resource_changing_handlers := resource_changing_handlers o |} w.

Definition add_resource_changing
    (r : RegistryRef) (k : Resource) (handler : ResourceChangingHandler.t) (w : World)
  : World :=
  let o := registry_at w r in
  with_operator_registry r
    {| activity_handlers := activity_handlers o;
       resource_watching_handlers := resource_watching_handlers o;
       resource_changing_handlers :=
         <[k := default [] (resource_changing_handlers o !! k) ++ [handler]]>
           (resource_changing_handlers o) |} w.

Definition add_sub_handler (s : SubRegistryRef) (handler : ResourceChangingHandler.t)
    (w : World) : World :=
  {| operator_registries := operator_registries w;
     changing_registries := <[s := subregistry_at w s ++ [handler]]> (changing_registries w);
     handler_var := handler_var w;
     subregistry_var := subregistry_var w;
     issued_warnings := issued_warnings w |}.

(** [real_registry.activity_handlers.append(handler)]. *)
Definition activity_handlers_append (r : RegistryRef) (handler : ActivityHandler.t)
  : M unit := modify (add_activity r handler).

(** [real_registry.resource_watching_handlers[real_resource].append(handler)]. *)
Definition resource_watching_handlers_append
    (r : RegistryRef) (k : Resource) (handler : ResourceWatchingHandler.t)
  : M unit := modify (add_resource_watching r k handler).

(** [real_registry.resource_changing_handlers[real_resource].append(handler)]. *)
Definition resource_changing_handlers_append
    (r : RegistryRef) (k : Resource) (handler : ResourceChangingHandler.t)
  : M unit := modify (add_resource_changing r k handler).

(** [real_registry.append(handler)] on a [ResourceChangingRegistry]. *)
Definition registry_append (s : SubRegistryRef) (handler : ResourceChangingHandler.t)
  : M unit := modify (add_sub_handler s handler).

(** Python's truth value of an [Optional[bool]]: [None] counts as false. *)
Definition truthy (b : option bool) : bool := default false b.

(** The helper functions of [registries] and [dicts] that the decorators
    call: [generate_id(fn, id, prefix, suffix)] and [parse_field(field)]. *)
Class Externals := {
  generate_id : Callback -> option string -> option string -> option string -> string;
  parse_field : FieldSpec -> FieldPath;
}.

(** The three handler classes of [handlers], which on.py calls with keyword
    arguments: [handlers.ActivityHandler(fn=..., id=..., ...)] and the two
    others.  A call takes the record of its keyword arguments to the
    object that is then registered; it may issue warnings and it may
    raise. *)
Class Handlers := {
  new_ActivityHandler : ActivityHandler.t -> M ActivityHandler.t;
  new_ResourceWatchingHandler : ResourceWatchingHandler.t -> M ResourceWatchingHandler.t;
  new_ResourceChangingHandler : ResourceChangingHandler.t -> M ResourceChangingHandler.t;
}.

(** ** on.py *)

Definition label_warning : Warning :=
  {| message := "`None` for label filters is deprecated; use kopf.PRESENT.";
     category := DeprecationWarning; stacklevel := 2 |}.

Definition annotation_warning : Warning :=
  {| message := "`None` for annotation filters is deprecated; use kopf.PRESENT.";
     category := DeprecationWarning; stacklevel := 2 |}.

Definition _warn_deprecated_filters (labels annotations : option MetaFilter) : M unit :=
  match labels with
  | Some labels =>
      for_each (map_to_list labels) (fun '(key, val) =>
        match val with
        | MetaNone =>
            warnings_warn "`None` for label filters is deprecated; use kopf.PRESENT."
                          DeprecationWarning 2
        | _ => mret tt
        end)
  | None => mret tt
  end ;;
  match annotations with
  | Some annotations =>
      for_each (map_to_list annotations) (fun '(key, val) =>
        match val with
        | MetaNone =>
            warnings_warn "`None` for annotation filters is deprecated; use kopf.PRESENT."
                          DeprecationWarning 2
        | _ => mret tt
        end)
  | None => mret tt
  end.

Section on.
Context `{Externals} {handler_classes : Handlers}.

Definition startup
    (id : option string) (errors : option ErrorsMode) (timeout : option float)
    (retries : option Z) (backoff cooldown : option float)
    (registry : option RegistryRef)
    (fn : Callback) : M Callback :=
  real_registry ← match registry with
                  | Some registry => mret registry
                  | None => get_default_registry
                  end;
  let real_id := generate_id fn id None None in
  handler ← new_ActivityHandler
    {| ActivityHandler.fn := fn; ActivityHandler.id := real_id;
       ActivityHandler.errors := errors; ActivityHandler.timeout := timeout;
       ActivityHandler.retries := retries; ActivityHandler.backoff := backoff;
       ActivityHandler.cooldown := cooldown;
       ActivityHandler.activity := STARTUP |};
  activity_handlers_append real_registry handler ;;
  mret fn.

Definition cleanup
    (id : option string) (errors : option ErrorsMode) (timeout : option float)
    (retries : option Z) (backoff cooldown : option float)
    (registry : option RegistryRef)
    (fn : Callback) : M Callback :=
  real_registry ← match registry with
                  | Some registry => mret registry
                  | None => get_default_registry
                  end;
  let real_id := generate_id fn id None None in
  handler ← new_ActivityHandler
    {| ActivityHandler.fn := fn; ActivityHandler.id := real_id;
       ActivityHandler.errors := errors; ActivityHandler.timeout := timeout;
       ActivityHandler.retries := retries; ActivityHandler.backoff := backoff;
       ActivityHandler.cooldown := cooldown;
       ActivityHandler.activity := CLEANUP |};
  activity_handlers_append real_registry handler ;;
  mret fn.

(** [@kopf.on.login()] handler for custom (re-)authentication. *)
Definition login
    (id : option string) (errors : option ErrorsMode) (timeout : option float)
    (retries : option Z) (backoff cooldown : option float)
    (registry : option RegistryRef)
    (fn : Callback) : M Callback :=
  real_registry ← match registry with
                  | Some registry => mret registry
                  | None => get_default_registry
                  end;
  let real_id := generate_id fn id None None in
  handler ← new_ActivityHandler
    {| ActivityHandler.fn := fn; ActivityHandler.id := real_id;
       ActivityHandler.errors := errors; ActivityHandler.timeout := timeout;
       ActivityHandler.retries := retries; ActivityHandler.backoff := backoff;
       ActivityHandler.cooldown := cooldown;
       ActivityHandler.activity := AUTHENTICATION |};
  activity_handlers_append real_registry handler ;;
  mret fn.

(** [@kopf.on.probe()] handler for arbitrary liveness metrics. *)
Definition probe
    (id : option string) (errors : option ErrorsMode) (timeout : option float)
    (retries : option Z) (backoff cooldown : option float)
    (registry : option RegistryRef)
    (fn : Callback) : M Callback :=
  real_registry ← match registry with
                  | Some registry => mret registry
                  | None => get_default_registry
                  end;
  let real_id := generate_id fn id None None in
  handler ← new_ActivityHandler
    {| ActivityHandler.fn := fn; ActivityHandler.id := real_id;
       ActivityHandler.errors := errors; ActivityHandler.timeout := timeout;
       ActivityHandler.retries := retries; ActivityHandler.backoff := backoff;
       ActivityHandler.cooldown := cooldown;
       ActivityHandler.activity := PROBE |};
  activity_handlers_append real_registry handler ;;
  mret fn.

(** [@kopf.on.resume()] handler for the object resuming on operator (re)start. *)
Definition resume
    (group version plural : string)
    (id : option string) (errors : option ErrorsMode) (timeout : option float)
    (retries : option Z) (backoff cooldown : option float)
    (registry : option RegistryRef)
    (deleted : option bool)
    (labels annotations : option MetaFilter) (when : option Callback)
    (fn : Callback) : M Callback :=
  _warn_deprecated_filters labels annotations ;;
  real_registry ← match registry with
                  | Some registry => mret registry
                  | None => get_default_registry
                  end;
  let real_resource := {| group := group; version := version; plural := plural |} in
  let real_id := generate_id fn id None None in
  handler ← new_ResourceChangingHandler
    {| ResourceChangingHandler.fn := fn; ResourceChangingHandler.id := real_id;
       ResourceChangingHandler.field := None;
       ResourceChangingHandler.errors := errors;
       ResourceChangingHandler.timeout := timeout;
       ResourceChangingHandler.retries := retries;
       ResourceChangingHandler.backoff := backoff;
       ResourceChangingHandler.cooldown := cooldown;
       ResourceChangingHandler.labels := labels;
       ResourceChangingHandler.annotations := annotations;
       ResourceChangingHandler.when := when;
       ResourceChangingHandler.initial := Some true;
       ResourceChangingHandler.deleted := deleted;
       ResourceChangingHandler.requires_finalizer := None;
       ResourceChangingHandler.reason := None |};
  resource_changing_handlers_append real_registry real_resource handler ;;
  mret fn.

(** [@kopf.on.create()] handler for the object creation. *)
Definition create
    (group version plural : string)
    (id : option string) (errors : option ErrorsMode) (timeout : option float)
    (retries : option Z) (backoff cooldown : option float)
    (registry : option RegistryRef)
    (labels annotations : option MetaFilter) (when : option Callback)
    (fn : Callback) : M Callback :=
  _warn_deprecated_filters labels annotations ;;
  real_registry ← match registry with
                  | Some registry => mret registry
                  | None => get_default_registry
                  end;
  let real_resource := {| group := group; version := version; plural := plural |} in
  let real_id := generate_id fn id None None in
  handler ← new_ResourceChangingHandler
    {| ResourceChangingHandler.fn := fn; ResourceChangingHandler.id := real_id;
       ResourceChangingHandler.field := None;
       ResourceChangingHandler.errors := errors;
       ResourceChangingHandler.timeout := timeout;
       ResourceChangingHandler.retries := retries;
       ResourceChangingHandler.backoff := backoff;
       ResourceChangingHandler.cooldown := cooldown;
       ResourceChangingHandler.labels := labels;
       ResourceChangingHandler.annotations := annotations;
       ResourceChangingHandler.when := when;
       ResourceChangingHandler.initial := None;
       ResourceChangingHandler.deleted := None;
       ResourceChangingHandler.requires_finalizer := None;
       ResourceChangingHandler.reason := Some CREATE |};
  resource_changing_handlers_append real_registry real_resource handler ;;
  mret fn.

(** [@kopf.on.update()] handler for the object update or change. *)
Definition update
    (group version plural : string)
    (id : option string) (errors : option ErrorsMode) (timeout : option float)
    (retries : option Z) (backoff cooldown : option float)
    (registry : option RegistryRef)
    (labels annotations : option MetaFilter) (when : option Callback)
    (fn : Callback) : M Callback :=
  _warn_deprecated_filters labels annotations ;;
  real_registry ← match registry with
                  | Some registry => mret registry
                  | None => get_default_registry
                  end;
  let real_resource := {| group := group; version := version; plural := plural |} in
  let real_id := generate_id fn id None None in
  handler ← new_ResourceChangingHandler
    {| ResourceChangingHandler.fn := fn; ResourceChangingHandler.id := real_id;
       ResourceChangingHandler.field := None;
       ResourceChangingHandler.errors := errors;
       ResourceChangingHandler.timeout := timeout;
       ResourceChangingHandler.retries := retries;
       ResourceChangingHandler.backoff := backoff;
       ResourceChangingHandler.cooldown := cooldown;
       ResourceChangingHandler.labels := labels;
       ResourceChangingHandler.annotations := annotations;
       ResourceChangingHandler.when := when;
       ResourceChangingHandler.initial := None;
       ResourceChangingHandler.deleted := None;
       ResourceChangingHandler.requires_finalizer := None;
       ResourceChangingHandler.reason := Some UPDATE |};
  resource_changing_handlers_append real_registry real_resource handler ;;
  mret fn.

(** [@kopf.on.delete()] handler for the object deletion.  The finalizer flag
    is [bool(not optional)]. *)
Definition delete
    (group version plural : string)
    (id : option string) (errors : option ErrorsMode) (timeout : option float)
    (retries : option Z) (backoff cooldown : option float)
    (registry : option RegistryRef)
    (optional : option bool)
    (labels annotations : option MetaFilter) (when : option Callback)
    (fn : Callback) : M Callback :=
  _warn_deprecated_filters labels annotations ;;
  real_registry ← match registry with
                  | Some registry => mret registry
                  | None => get_default_registry
                  end;
  let real_resource := {| group := group; version := version; plural := plural |} in
  let real_id := generate_id fn id None None in
  handler ← new_ResourceChangingHandler
    {| ResourceChangingHandler.fn := fn; ResourceChangingHandler.id := real_id;
       ResourceChangingHandler.field := None;
       ResourceChangingHandler.errors := errors;
       ResourceChangingHandler.timeout := timeout;
       ResourceChangingHandler.retries := retries;
       ResourceChangingHandler.backoff := backoff;
       ResourceChangingHandler.cooldown := cooldown;
       ResourceChangingHandler.labels := labels;
       ResourceChangingHandler.annotations := annotations;
       ResourceChangingHandler.when := when;
       ResourceChangingHandler.initial := None;
       ResourceChangingHandler.deleted := None;
       ResourceChangingHandler.requires_finalizer := Some (negb (truthy optional));
       ResourceChangingHandler.reason := Some DELETE |};
  resource_changing_handlers_append real_registry real_resource handler ;;
  mret fn.

(** [@kopf.on.field()] handler for the individual field changes.
    [parse_field(field) or None] turns an empty path into [None], and the
    suffix is [".".join(real_field or [])]. *)
Definition field
    (group version plural : string)
    (field : FieldSpec)
    (id : option string) (errors : option ErrorsMode) (timeout : option float)
    (retries : option Z) (backoff cooldown : option float)
    (registry : option RegistryRef)
    (labels annotations : option MetaFilter) (when : option Callback)
    (fn : Callback) : M Callback :=
  _warn_deprecated_filters labels annotations ;;
  real_registry ← match registry with
                  | Some registry => mret registry
                  | None => get_default_registry
                  end;
  let real_resource := {| group := group; version := version; plural := plural |} in
  let real_field := match parse_field field with
                    | [] => None  (* to not store tuple() as a no-field case. *)
                    | path => Some path
                    end in
  let real_id := generate_id fn id None (Some (String.concat "." (default [] real_field))) in
  handler ← new_ResourceChangingHandler
    {| ResourceChangingHandler.fn := fn; ResourceChangingHandler.id := real_id;
       ResourceChangingHandler.field := real_field;
       ResourceChangingHandler.errors := errors;
       ResourceChangingHandler.timeout := timeout;
       ResourceChangingHandler.retries := retries;
       ResourceChangingHandler.backoff := backoff;
       ResourceChangingHandler.cooldown := cooldown;
       ResourceChangingHandler.labels := labels;
       ResourceChangingHandler.annotations := annotations;
       ResourceChangingHandler.when := when;
       ResourceChangingHandler.initial := None;
       ResourceChangingHandler.deleted := None;
       ResourceChangingHandler.requires_finalizer := None;
       ResourceChangingHandler.reason := None |};
  resource_changing_handlers_append real_registry real_resource handler ;;
  mret fn.

(** [@kopf.on.event()] handler for the silent spies on the events. *)
Definition event
    (group version plural : string)
    (id : option string)
    (registry : option RegistryRef)
    (labels annotations : option MetaFilter) (when : option Callback)
    (fn : Callback) : M Callback :=
  _warn_deprecated_filters labels annotations ;;
  real_registry ← match registry with
                  | Some registry => mret registry
                  | None => get_default_registry
                  end;
  let real_resource := {| group := group; version := version; plural := plural |} in
  let real_id := generate_id fn id None None in
  handler ← new_ResourceWatchingHandler
    {| ResourceWatchingHandler.fn := fn; ResourceWatchingHandler.id := real_id;
       ResourceWatchingHandler.errors := None;
       ResourceWatchingHandler.timeout := None;
       ResourceWatchingHandler.retries := None;
       ResourceWatchingHandler.backoff := None;
       ResourceWatchingHandler.cooldown := None;
       ResourceWatchingHandler.labels := labels;
       ResourceWatchingHandler.annotations := annotations;
       ResourceWatchingHandler.when := when |};
  resource_watching_handlers_append real_registry real_resource handler ;;
  mret fn.

(** [@kopf.on.this()] decorator for the dynamically generated sub-handlers.
    The current handler is read first, then the registry is resolved; the
    prefix is the current handler's id when there is one. *)
Definition this
    (id : option string) (errors : option ErrorsMode) (timeout : option float)
    (retries : option Z) (backoff cooldown : option float)
    (registry : option SubRegistryRef)
    (labels annotations : option MetaFilter) (when : option Callback)
    (fn : Callback) : M Callback :=
  _warn_deprecated_filters labels annotations ;;
  parent_handler ← handler_var_get;
  real_registry ← match registry with
                  | Some registry => mret registry
                  | None => subregistry_var_get
                  end;
  let real_id := generate_id fn id
                   (match parent_handler with
                    | Some parent_handler => Some (handler_id parent_handler)
                    | None => None
                    end)
                   None in
  handler ← new_ResourceChangingHandler
    {| ResourceChangingHandler.fn := fn; ResourceChangingHandler.id := real_id;
       ResourceChangingHandler.field := None;
       ResourceChangingHandler.errors := errors;
       ResourceChangingHandler.timeout := timeout;
       ResourceChangingHandler.retries := retries;
       ResourceChangingHandler.backoff := backoff;
       ResourceChangingHandler.cooldown := cooldown;
       ResourceChangingHandler.labels := labels;
       ResourceChangingHandler.annotations := annotations;
       ResourceChangingHandler.when := when;
       ResourceChangingHandler.initial := None;
       ResourceChangingHandler.deleted := None;
       ResourceChangingHandler.requires_finalizer := None;
       ResourceChangingHandler.reason := None |};
  registry_append real_registry handler ;;
  mret fn.

(** Register a function as a sub-handler of the currently executed handler:
    builds the [this] decorator from its keyword arguments and applies it. *)
Definition register
    (fn : Callback)
    (id : option string) (errors : option ErrorsMode) (timeout : option float)
    (retries : option Z) (backoff cooldown : option float)
    (registry : option SubRegistryRef)
    (labels annotations : option MetaFilter) (when : option Callback)
  : M Callback :=
  let decorator :=
    this id errors timeout retries backoff cooldown registry labels annotations when in
  decorator fn.

End on.

(** ** The helpers as the specification describes them *)

(** Python's [s.split(sep)] for a one-character separator. *)
Fixpoint split_on (sep : ascii) (s : string) : list string :=
  match s with
  | EmptyString => [EmptyString]
  | String c rest =>
      if Ascii.eqb c sep then EmptyString :: split_on sep rest
      else match split_on sep rest with
           | segment :: segments => String c segment :: segments
           | [] => [String c EmptyString]
           end
  end.

(** Modelled from the spec: [registries.generate_id], which is not in the
    sources.  The base is the explicit id, canonicalised, or else the
    callback's declared name; a non-empty suffix is appended after "/"; a
    prefix is put in front, followed by "/".  The specification leaves the
    canonicalisation open, so it is a parameter. *)
Definition generate_id_spec (canonical : string -> string)
    (fn : Callback) (id prefix suffix : option string) : string :=
  let real_id := match id with
                 | Some id => canonical id
                 | None => declared_name fn
                 end in
  let real_id := match suffix with
                 | Some suffix =>
                     if String.eqb suffix "" then real_id
                     else real_id +:+ "/" +:+ suffix
                 | None => real_id
                 end in
  match prefix with
  | Some prefix => prefix +:+ "/" +:+ real_id
  | None => real_id
  end.

(** Modelled from the spec: [dicts.parse_field], which is not in the
    sources.  A field path is accepted as a sequence already split, or as
    one dotted string to be split on ".". *)
Definition parse_field_spec (field : FieldSpec) : FieldPath :=
  match field with
  | FieldString dotted => split_on "." dotted
  | FieldSequence segments => segments
  end.

Definition spec_externals (canonical : string -> string) : Externals :=
  {| generate_id := generate_id_spec canonical;
     parse_field := parse_field_spec |}.

(** The handler classes as plain records of their keyword arguments: the
    object registered is what on.py passed, nothing is issued and nothing
    is refused.  This is what on.py does by itself; the statements that
    name no handler classes are about it. *)
#[global] Instance arguments_as_passed : Handlers :=
  {| new_ActivityHandler := mret;
     new_ResourceWatchingHandler := mret;
     new_ResourceChangingHandler := mret |}.

(** [BaseHandler.__post_init__], the initialiser that the three handler
    classes share in [kopf.reactor.handlers]; the module is not in the
    sources at hand.  The specification has [backoff] win over [cooldown];
    the framework refuses the two together with [TypeError], and takes a
    [cooldown] given alone as the [backoff], with a deprecation warning.
    The object keeps no [cooldown] of its own.  The texts of the error and
    of the warning are parameters. *)
Definition __post_init__ (refusal : string) (deprecation : Warning)
    (backoff cooldown : option float) : M (option float) :=
  match backoff, cooldown with
  | Some _, Some _ => fun w => (inl (TypeError refusal), w)
  | None, Some cooldown =>
      warnings_warn (message deprecation) (category deprecation) (stacklevel deprecation) ;;
      mret (Some cooldown)
  | _, None => mret backoff
  end.

(** The handler classes of the framework: the keyword arguments as passed,
    but for [backoff] and [cooldown], which go through [__post_init__]. *)
Definition framework_handlers (refusal : string) (deprecation : Warning) : Handlers :=
  {| new_ActivityHandler := fun kwargs =>
       backoff ← __post_init__ refusal deprecation
                   (ActivityHandler.backoff kwargs) (ActivityHandler.cooldown kwargs);
       mret {| ActivityHandler.fn := ActivityHandler.fn kwargs;
               ActivityHandler.id := ActivityHandler.id kwargs;
               ActivityHandler.errors := ActivityHandler.errors kwargs;
               ActivityHandler.timeout := ActivityHandler.timeout kwargs;
               ActivityHandler.retries := ActivityHandler.retries kwargs;
               ActivityHandler.backoff := backoff;
               ActivityHandler.cooldown := None;
               ActivityHandler.activity := ActivityHandler.activity kwargs |};
     new_ResourceWatchingHandler := fun kwargs =>
       backoff ← __post_init__ refusal deprecation
                   (ResourceWatchingHandler.backoff kwargs)
                   (ResourceWatchingHandler.cooldown kwargs);
       mret {| ResourceWatchingHandler.fn := ResourceWatchingHandler.fn kwargs;
               ResourceWatchingHandler.id := ResourceWatchingHandler.id kwargs;
               ResourceWatchingHandler.errors := ResourceWatchingHandler.errors kwargs;
               ResourceWatchingHandler.timeout := ResourceWatchingHandler.timeout kwargs;
               ResourceWatchingHandler.retries := ResourceWatchingHandler.retries kwargs;
               ResourceWatchingHandler.backoff := backoff;
               ResourceWatchingHandler.cooldown := None;
               ResourceWatchingHandler.labels := ResourceWatchingHandler.labels kwargs;
               ResourceWatchingHandler.annotations :=
                 ResourceWatchingHandler.annotations kwargs;
               ResourceWatchingHandler.when := ResourceWatchingHandler.when kwargs |};
     new_ResourceChangingHandler := fun kwargs =>
       backoff ← __post_init__ refusal deprecation
                   (ResourceChangingHandler.backoff kwargs)
                   (ResourceChangingHandler.cooldown kwargs);
       mret {| ResourceChangingHandler.fn := ResourceChangingHandler.fn kwargs;
               ResourceChangingHandler.id := ResourceChangingHandler.id kwargs;
               ResourceChangingHandler.field := ResourceChangingHandler.field kwargs;
               ResourceChangingHandler.errors := ResourceChangingHandler.errors kwargs;
               ResourceChangingHandler.timeout := ResourceChangingHandler.timeout kwargs;
               ResourceChangingHandler.retries := ResourceChangingHandler.retries kwargs;
               ResourceChangingHandler.backoff := backoff;
               ResourceChangingHandler.cooldown := None;
               ResourceChangingHandler.labels := ResourceChangingHandler.labels kwargs;
               ResourceChangingHandler.annotations :=
                 ResourceChangingHandler.annotations kwargs;
               ResourceChangingHandler.when := ResourceChangingHandler.when kwargs;
               ResourceChangingHandler.initial := ResourceChangingHandler.initial kwargs;
               ResourceChangingHandler.deleted := ResourceChangingHandler.deleted kwargs;
               ResourceChangingHandler.requires_finalizer :=
                 ResourceChangingHandler.requires_finalizer kwargs;
               ResourceChangingHandler.reason := ResourceChangingHandler.reason kwargs |} |}.

(** ** Registration calls as data

    One constructor per entry point of on.py, so that statements can range
    over every call and over sequences of calls. *)

Record Policy := {
  policy_errors : option ErrorsMode;
  policy_timeout : option float;
  policy_retries : option Z;
  policy_backoff : option float;
  policy_cooldown : option float;
}.

Record Filters := {
  filter_labels : option MetaFilter;
  filter_annotations : option MetaFilter;
  filter_when : option Callback;
}.

Inductive Call :=
| CallStartup (id : option string) (p : Policy) (registry : option RegistryRef) (fn : Callback)
| CallCleanup (id : option string) (p : Policy) (registry : option RegistryRef) (fn : Callback)
| CallLogin (id : option string) (p : Policy) (registry : option RegistryRef) (fn : Callback)
| CallProbe (id : option string) (p : Policy) (registry : option RegistryRef) (fn : Callback)
| CallResume (k : Resource) (id : option string) (p : Policy) (registry : option RegistryRef)
    (deleted : option bool) (f : Filters) (fn : Callback)
| CallCreate (k : Resource) (id : option string) (p : Policy) (registry : option RegistryRef)
    (f : Filters) (fn : Callback)
| CallUpdate (k : Resource) (id : option string) (p : Policy) (registry : option RegistryRef)
    (f : Filters) (fn : Callback)
| CallDelete (k : Resource) (id : option string) (p : Policy) (registry : option RegistryRef)
    (optional : option bool) (f : Filters) (fn : Callback)
| CallField (k : Resource) (field : FieldSpec) (id : option string) (p : Policy)
    (registry : option RegistryRef) (f : Filters) (fn : Callback)
| CallEvent (k : Resource) (id : option string) (registry : option RegistryRef)
    (f : Filters) (fn : Callback)
| CallThis (id : option string) (p : Policy) (registry : option SubRegistryRef)
    (f : Filters) (fn : Callback)
| CallRegister (fn : Callback) (id : option string) (p : Policy)
    (registry : option SubRegistryRef) (f : Filters).

Definition call_fn (c : Call) : Callback :=
  match c with
  | CallStartup _ _ _ fn | CallCleanup _ _ _ fn | CallLogin _ _ _ fn | CallProbe _ _ _ fn
  | CallResume _ _ _ _ _ _ fn | CallCreate _ _ _ _ _ fn | CallUpdate _ _ _ _ _ fn
  | CallDelete _ _ _ _ _ _ fn | CallField _ _ _ _ _ _ fn | CallEvent _ _ _ _ fn
  | CallThis _ _ _ _ fn | CallRegister fn _ _ _ _ => fn
  end.

(** The [backoff] and [cooldown] a call was given; [event] takes neither. *)
Definition call_backoff (c : Call) : option float :=
  match c with
  | CallStartup _ p _ _ | CallCleanup _ p _ _ | CallLogin _ p _ _ | CallProbe _ p _ _
  | CallResume _ _ p _ _ _ _ | CallCreate _ _ p _ _ _ | CallUpdate _ _ p _ _ _
  | CallDelete _ _ p _ _ _ _ | CallField _ _ _ p _ _ _
  | CallThis _ p _ _ _ | CallRegister _ _ p _ _ => policy_backoff p
  | CallEvent _ _ _ _ _ => None
  end.

Definition call_cooldown (c : Call) : option float :=
  match c with
  | CallStartup _ p _ _ | CallCleanup _ p _ _ | CallLogin _ p _ _ | CallProbe _ p _ _
  | CallResume _ _ p _ _ _ _ | CallCreate _ _ p _ _ _ | CallUpdate _ _ p _ _ _
  | CallDelete _ _ p _ _ _ _ | CallField _ _ _ p _ _ _
  | CallThis _ p _ _ _ | CallRegister _ _ p _ _ => policy_cooldown p
  | CallEvent _ _ _ _ _ => None
  end.

(** The label and annotation filters of a call; the activities take none. *)
Definition call_labels (c : Call) : option MetaFilter :=
  match c with
  | CallStartup _ _ _ _ | CallCleanup _ _ _ _ | CallLogin _ _ _ _ | CallProbe _ _ _ _ => None
  | CallResume _ _ _ _ _ f _ | CallCreate _ _ _ _ f _ | CallUpdate _ _ _ _ f _
  | CallDelete _ _ _ _ _ f _ | CallField _ _ _ _ _ f _ | CallEvent _ _ _ f _
  | CallThis _ _ _ f _ | CallRegister _ _ _ _ f => filter_labels f
  end.

Definition call_annotations (c : Call) : option MetaFilter :=
  match c with
  | CallStartup _ _ _ _ | CallCleanup _ _ _ _ | CallLogin _ _ _ _ | CallProbe _ _ _ _ => None
  | CallResume _ _ _ _ _ f _ | CallCreate _ _ _ _ f _ | CallUpdate _ _ _ _ f _
  | CallDelete _ _ _ _ _ f _ | CallField _ _ _ _ _ f _ | CallEvent _ _ _ f _
  | CallThis _ _ _ f _ | CallRegister _ _ _ _ f => filter_annotations f
  end.

(** A list that registration appends to. *)
Inductive Slot :=
| ActivitySlot (r : RegistryRef)
| WatchingSlot (r : RegistryRef) (k : Resource)
| ChangingSlot (r : RegistryRef) (k : Resource)
| SubSlot (s : SubRegistryRef).

#[global] Instance Slot_eq_dec : EqDecision Slot.
Proof. solve_decision. Defined.

Definition slot_handlers (w : World) (s : Slot) : list BaseHandler :=
  match s with
  | ActivitySlot r => OfActivity <$> activities_at w r
  | WatchingSlot r k => OfResourceWatching <$> watching_at w r k
  | ChangingSlot r k => OfResourceChanging <$> changing_at w r k
  | SubSlot s => OfResourceChanging <$> subregistry_at w s
  end.

(** The list a call is made for: the activity list or the index entry of
    the registry it names (the default one when it names none); for the
    dynamic calls the sub-registry given or the one of the execution
    context, and none when no handler is being executed or no sub-registry
    can be found. *)
Definition call_slot (c : Call) (w : World) : option Slot :=
  match c with
  | CallStartup _ _ registry _ | CallCleanup _ _ registry _
  | CallLogin _ _ registry _ | CallProbe _ _ registry _ =>
      Some (ActivitySlot (default DefaultRegistry registry))
  | CallResume k _ _ registry _ _ _ | CallCreate k _ _ registry _ _
  | CallUpdate k _ _ registry _ _ | CallDelete k _ _ registry _ _ _
  | CallField k _ _ _ registry _ _ =>
      Some (ChangingSlot (default DefaultRegistry registry) k)
  | CallEvent k _ registry _ _ =>
      Some (WatchingSlot (default DefaultRegistry registry) k)
  | CallThis _ _ registry _ _ | CallRegister _ _ _ registry _ =>
      match handler_var w with
      | None => None
      | Some _ =>
          SubSlot <$> match registry with
                      | Some registry => Some registry
                      | None => subregistry_var w
                      end
      end
  end.

Section calls.
Context `{Externals} {handler_classes : Handlers}.

Definition run (c : Call) : M Callback :=
  match c with
  | CallStartup id p registry fn =>
      startup id (policy_errors p) (policy_timeout p) (policy_retries p)
        (policy_backoff p) (policy_cooldown p) registry fn
  | CallCleanup id p registry fn =>
      cleanup id (policy_errors p) (policy_timeout p) (policy_retries p)
        (policy_backoff p) (policy_cooldown p) registry fn
  | CallLogin id p registry fn =>
      login id (policy_errors p) (policy_timeout p) (policy_retries p)
        (policy_backoff p) (policy_cooldown p) registry fn
  | CallProbe id p registry fn =>
      probe id (policy_errors p) (policy_timeout p) (policy_retries p)
        (policy_backoff p) (policy_cooldown p) registry fn
  | CallResume k id p registry deleted f fn =>
      resume (group k) (version k) (plural k)
        id (policy_errors p) (policy_timeout p) (policy_retries p)
        (policy_backoff p) (policy_cooldown p) registry deleted
        (filter_labels f) (filter_annotations f) (filter_when f) fn
  | CallCreate k id p registry f fn =>
      create (group k) (version k) (plural k)
        id (policy_errors p) (policy_timeout p) (policy_retries p)
        (policy_backoff p) (policy_cooldown p) registry
        (filter_labels f) (filter_annotations f) (filter_when f) fn
  | CallUpdate k id p registry f fn =>
      update (group k) (version k) (plural k)
        id (policy_errors p) (policy_timeout p) (policy_retries p)
        (policy_backoff p) (policy_cooldown p) registry
        (filter_labels f) (filter_annotations f) (filter_when f) fn
  | CallDelete k id p registry optional f fn =>
      delete (group k) (version k) (plural k)
        id (policy_errors p) (policy_timeout p) (policy_retries p)
        (policy_backoff p) (policy_cooldown p) registry optional
        (filter_labels f) (filter_annotations f) (filter_when f) fn
  | CallField k field_ id p registry f fn =>
      field (group k) (version k) (plural k) field_
        id (policy_errors p) (policy_timeout p) (policy_retries p)
        (policy_backoff p) (policy_cooldown p) registry
        (filter_labels f) (filter_annotations f) (filter_when f) fn
  | CallEvent k id registry f fn =>
      event (group k) (version k) (plural k) id registry
        (filter_labels f) (filter_annotations f) (filter_when f) fn
  | CallThis id p registry f fn =>
      this id (policy_errors p) (policy_timeout p) (policy_retries p)
        (policy_backoff p) (policy_cooldown p) registry
        (filter_labels f) (filter_annotations f) (filter_when f) fn
  | CallRegister fn id p registry f =>
      register fn id (policy_errors p) (policy_timeout p) (policy_retries p)
        (policy_backoff p) (policy_cooldown p) registry
        (filter_labels f) (filter_annotations f) (filter_when f)
  end.

(** The calls of a sequence, made one after the other; a call that raises
    leaves its exception to the caller and the next call is made. *)
Fixpoint run_all (cs : list Call) (w : World) : World :=
  match cs with
  | [] => w
  | c :: cs => run_all cs (run c w).2
  end.

End calls.

(** ** The vocabulary of the statements *)

#[global] Instance Callback_eq_dec : EqDecision Callback.
Proof. solve_decision. Defined.

#[global] Instance MetaFilterValue_eq_dec : EqDecision MetaFilterValue.
Proof. solve_decision. Defined.

(** The entries of a filter that use [None]. *)
Definition deprecated_entries (m : option MetaFilter) : nat :=
  match m with
  | Some m => length (filter (fun kv => kv.2 = MetaNone) (map_to_list m))
  | None => 0
  end.

Definition deprecation_warnings (labels annotations : option MetaFilter) : list Warning :=
  replicate (deprecated_entries labels) label_warning ++
  replicate (deprecated_entries annotations) annotation_warning.

(** [appends w w' target h]: from [w] to [w'] the handler [h] was added at
    the end of [target] and no other list changed. *)
Definition appends (w w' : World) (target : Slot) (h : BaseHandler) : Prop :=
  forall s, slot_handlers w' s =
            slot_handlers w s ++ if decide (s = target) then [h] else [].

Definition unchanged (w w' : World) : Prop :=
  forall s, slot_handlers w' s = slot_handlers w s.

(** A filter that has an entry with value [None]. *)
Definition uses_none (m : option MetaFilter) : Prop :=
  exists m' key, m = Some m' /\ m' !! key = Some MetaNone.

(** A world in which nothing was registered, no handler is being executed
    and no warning was issued. *)
Definition empty_world : World :=
  {| operator_registries := ∅;
     changing_registries := ∅;
     handler_var := None;
     subregistry_var := None;
     issued_warnings := [] |}.

(** What a call returns or raises, read off its arguments and the context
    variables: the static entry points return the callback; the dynamic
    ones need [handler_var] set and a sub-registry, given or in
    [subregistry_var]. *)
Definition expected_outcome (c : Call) (w : World) : Exception + Callback :=
  match c with
  | CallThis _ _ registry _ fn | CallRegister fn _ _ registry _ =>
      match handler_var w with
      | None => inl (LookupError "handler_var")
      | Some _ =>
          match registry, subregistry_var w with
          | None, None => inl (LookupError "subregistry_var")
          | _, _ => inr fn
          end
      end
  | _ => inr (call_fn c)
  end.

(** The explicit id of a call. *)
Definition call_id (c : Call) : option string :=
  match c with
  | CallStartup id _ _ _ | CallCleanup id _ _ _ | CallLogin id _ _ _ | CallProbe id _ _ _
  | CallResume _ id _ _ _ _ _ | CallCreate _ id _ _ _ _ | CallUpdate _ id _ _ _ _
  | CallDelete _ id _ _ _ _ _ | CallField _ _ id _ _ _ _ | CallEvent _ id _ _ _
  | CallThis id _ _ _ _ | CallRegister _ id _ _ _ => id
  end.

(** The calls of the dynamic sub-registration: [this] and [register]. *)
Definition is_dynamic (c : Call) : bool :=
  match c with
  | CallThis _ _ _ _ _ | CallRegister _ _ _ _ _ => true
  | _ => false
  end.

(** The helpers of the specification with ids taken as they are given. *)
Definition plain_externals : Externals := spec_externals (fun id => id).

Definition no_policy : Policy :=
  {| policy_errors := None; policy_timeout := None; policy_retries := None;
     policy_backoff := None; policy_cooldown := None |}.

Definition no_filters : Filters :=
  {| filter_labels := None; filter_annotations := None; filter_when := None |}.

Definition widgets : Resource :=
  {| group := "acme.io"; version := "v1"; plural := "widgets" |}.

Definition make : Callback := {| address := 1; declared_name := "make" |}.
Definition resize : Callback := {| address := 2; declared_name := "resize" |}.

(** The options a handler record carries, whatever its class; an activity
    handler has no filters. *)
Definition handler_errors (h : BaseHandler) : option ErrorsMode :=
  match h with
  | OfActivity a => ActivityHandler.errors a
  | OfResourceWatching w => ResourceWatchingHandler.errors w
  | OfResourceChanging c => ResourceChangingHandler.errors c
  end.

Definition handler_timeout (h : BaseHandler) : option float :=
  match h with
  | OfActivity a => ActivityHandler.timeout a
  | OfResourceWatching w => ResourceWatchingHandler.timeout w
  | OfResourceChanging c => ResourceChangingHandler.timeout c
  end.

Definition handler_retries (h : BaseHandler) : option Z :=
  match h with
  | OfActivity a => ActivityHandler.retries a
  | OfResourceWatching w => ResourceWatchingHandler.retries w
  | OfResourceChanging c => ResourceChangingHandler.retries c
  end.

Definition handler_labels (h : BaseHandler) : option MetaFilter :=
  match h with
  | OfActivity _ => None
  | OfResourceWatching w => ResourceWatchingHandler.labels w
  | OfResourceChanging c => ResourceChangingHandler.labels c
  end.

Definition handler_annotations (h : BaseHandler) : option MetaFilter :=
  match h with
  | OfActivity _ => None
  | OfResourceWatching w => ResourceWatchingHandler.annotations w
  | OfResourceChanging c => ResourceChangingHandler.annotations c
  end.

Definition handler_when (h : BaseHandler) : option Callback :=
  match h with
  | OfActivity _ => None
  | OfResourceWatching w => ResourceWatchingHandler.when w
  | OfResourceChanging c => ResourceChangingHandler.when c
  end.

(** The options a call was given; [event] takes no policy and the
    activities take no filters. *)
Definition call_errors (c : Call) : option ErrorsMode :=
  match c with
  | CallStartup _ p _ _ | CallCleanup _ p _ _ | CallLogin _ p _ _ | CallProbe _ p _ _
  | CallResume _ _ p _ _ _ _ | CallCreate _ _ p _ _ _ | CallUpdate _ _ p _ _ _
  | CallDelete _ _ p _ _ _ _ | CallField _ _ _ p _ _ _
  | CallThis _ p _ _ _ | CallRegister _ _ p _ _ => policy_errors p
  | CallEvent _ _ _ _ _ => None
  end.

Definition call_timeout (c : Call) : option float :=
  match c with
  | CallStartup _ p _ _ | CallCleanup _ p _ _ | CallLogin _ p _ _ | CallProbe _ p _ _
  | CallResume _ _ p _ _ _ _ | CallCreate _ _ p _ _ _ | CallUpdate _ _ p _ _ _
  | CallDelete _ _ p _ _ _ _ | CallField _ _ _ p _ _ _
  | CallThis _ p _ _ _ | CallRegister _ _ p _ _ => policy_timeout p
  | CallEvent _ _ _ _ _ => None
  end.

Definition call_retries (c : Call) : option Z :=
  match c with
  | CallStartup _ p _ _ | CallCleanup _ p _ _ | CallLogin _ p _ _ | CallProbe _ p _ _
  | CallResume _ _ p _ _ _ _ | CallCreate _ _ p _ _ _ | CallUpdate _ _ p _ _ _
  | CallDelete _ _ p _ _ _ _ | CallField _ _ _ p _ _ _
  | CallThis _ p _ _ _ | CallRegister _ _ p _ _ => policy_retries p
  | CallEvent _ _ _ _ _ => None
  end.

Definition call_when (c : Call) : option Callback :=
  match c with
  | CallStartup _ _ _ _ | CallCleanup _ _ _ _ | CallLogin _ _ _ _ | CallProbe _ _ _ _ => None
  | CallResume _ _ _ _ _ f _ | CallCreate _ _ _ _ f _ | CallUpdate _ _ _ _ f _
  | CallDelete _ _ _ _ _ f _ | CallField _ _ _ _ _ f _ | CallEvent _ _ _ f _
  | CallThis _ _ _ f _ | CallRegister _ _ _ _ f => filter_when f
  end.

(** Filters in the old style, a handler for [make], and the world while it
    is executed with sub-registry 7, for the examples. *)
Definition with_none_labels : Filters :=
  {| filter_labels := Some {[ "app" := MetaNone ]};
     filter_annotations := None;
     filter_when := Some resize |}.

Definition make_handler : ResourceChangingHandler.t :=
  {| ResourceChangingHandler.fn := make; ResourceChangingHandler.id := "make";
     ResourceChangingHandler.field := None;
     ResourceChangingHandler.errors := None; ResourceChangingHandler.timeout := None;
     ResourceChangingHandler.retries := None; ResourceChangingHandler.backoff := None;
     ResourceChangingHandler.cooldown := None; ResourceChangingHandler.labels := None;
     ResourceChangingHandler.annotations := None; ResourceChangingHandler.when := None;
     ResourceChangingHandler.initial := None; ResourceChangingHandler.deleted := None;
     ResourceChangingHandler.requires_finalizer := None;
     ResourceChangingHandler.reason := Some CREATE |}.

Definition while_making : World :=
  {| operator_registries := ∅;
     changing_registries := ∅;
     handler_var := Some (Some (OfResourceChanging make_handler));
     subregistry_var := Some 7;
     issued_warnings := [] |}.






(** The world with other values in the two context variables: what the
    reactor changes around an invocation. *)
Definition with_context (current : option (option BaseHandler))
    (sub : option SubRegistryRef) (w : World) : World :=
  {| operator_registries := operator_registries w;
     changing_registries := changing_registries w;
     handler_var := current;
     subregistry_var := sub;
     issued_warnings := issued_warnings w |}.

(** ** What the steps of a decorator do to the world *)

Lemma with_warnings_nil w : with_warnings [] w = w.
Proof. destruct w. unfold with_warnings. simpl. by rw app_nil_r. Qed.

Lemma with_warnings_app ws1 ws2 w :
  with_warnings ws2 (with_warnings ws1 w) = with_warnings (ws1 ++ ws2) w.
Proof. unfold with_warnings. simpl. by rw app_assoc. Qed.

Lemma for_each_warn (msg : string) (lvl : Z) (items : list (string * MetaFilterValue)) w :
  for_each items (fun '(key, val) =>
    match val with
    | MetaNone => warnings_warn msg DeprecationWarning lvl
    | _ => mret tt
    end) w =
  (inr tt,
   with_warnings
     (replicate (length (filter (fun kv => kv.2 = MetaNone) items))
        {| message := msg; category := DeprecationWarning; stacklevel := lvl |}) w).
Proof.
  revert w. induction items as [|[key val] items IH]; intros w.
  - simpl. by rw with_warnings_nil.
  - cbn [for_each]. unfold mbind, M_bind.
    destruct val; cbn -[filter with_warnings]; rw IH.
    + rw filter_cons_True //. by rw with_warnings_app.
    + by rw filter_cons_False.
    + by rw filter_cons_False.
    + by rw filter_cons_False.
    + by rw filter_cons_False.
Qed.

Lemma _warn_deprecated_filters_run labels annotations w :
  _warn_deprecated_filters labels annotations w =
  (inr tt, with_warnings (deprecation_warnings labels annotations) w).
Proof.
  unfold _warn_deprecated_filters, deprecation_warnings, mbind, M_bind.
  destruct labels as [labels|], annotations as [annotations|];
    rw ?for_each_warn; cbn [mret M_ret deprecated_entries replicate];
    rw ?for_each_warn ?with_warnings_app ?app_nil_r //.
  by rw with_warnings_nil.
Qed.

(** *** Reading the lists after an append *)

Lemma registry_at_with r o w r' :
  registry_at (with_operator_registry r o w) r' =
  if decide (r = r') then o else registry_at w r'.
Proof.
  unfold registry_at, with_operator_registry. simpl.
  rw lookup_insert. by case_decide.
Qed.

Lemma slot_handlers_with_warnings ws w s :
  slot_handlers (with_warnings ws w) s = slot_handlers w s.
Proof. by destruct s. Qed.

Lemma add_activity_slot r h w s :
  slot_handlers (add_activity r h w) s =
  slot_handlers w s ++ if decide (s = ActivitySlot r) then [OfActivity h] else [].
Proof.
  destruct s as [r'|r' k'|r' k'|s']; cbn [add_activity slot_handlers];
    unfold activities_at, watching_at, changing_at; rw ?registry_at_with;
    repeat case_decide; simplify_eq; rw ?fmap_app ?app_nil_r //.
Qed.

Lemma add_resource_watching_slot r k h w s :
  slot_handlers (add_resource_watching r k h w) s =
  slot_handlers w s ++ if decide (s = WatchingSlot r k) then [OfResourceWatching h] else [].
Proof.
  destruct s as [r'|r' k'|r' k'|s']; cbn [add_resource_watching slot_handlers];
    unfold activities_at, watching_at, changing_at; rw ?registry_at_with;
    repeat case_decide; simplify_eq; cbn [resource_watching_handlers];
    rw ?lookup_insert; repeat case_decide; simplify_eq;
    rw ?fmap_app ?app_nil_r //.
Qed.

Lemma add_resource_changing_slot r k h w s :
  slot_handlers (add_resource_changing r k h w) s =
  slot_handlers w s ++ if decide (s = ChangingSlot r k) then [OfResourceChanging h] else [].
Proof.
  destruct s as [r'|r' k'|r' k'|s']; cbn [add_resource_changing slot_handlers];
    unfold activities_at, watching_at, changing_at; rw ?registry_at_with;
    repeat case_decide; simplify_eq; cbn [resource_changing_handlers];
    rw ?lookup_insert; repeat case_decide; simplify_eq;
    rw ?fmap_app ?app_nil_r //.
Qed.

Lemma add_sub_handler_slot r h w s :
  slot_handlers (add_sub_handler r h w) s =
  slot_handlers w s ++ if decide (s = SubSlot r) then [OfResourceChanging h] else [].
Proof.
  destruct s as [r'|r' k'|r' k'|s']; cbn [add_sub_handler slot_handlers];
    rw ?app_nil_r //.
  unfold subregistry_at at 1. cbn [changing_registries].
  rw lookup_insert. repeat case_decide; simplify_eq; rw ?fmap_app ?app_nil_r //.
Qed.

(** *** The outcome of one call *)

Lemma appends_after_warnings ws w w' target h :
  appends (with_warnings ws w) w' target h -> appends w w' target h.
Proof. intros Happ s. rw (Happ s). by rw slot_handlers_with_warnings. Qed.

Lemma appends_add_activity r h w : appends w (add_activity r h w) (ActivitySlot r) (OfActivity h).
Proof. intros s. apply add_activity_slot. Qed.

Lemma appends_add_resource_watching r k h w :
  appends w (add_resource_watching r k h w) (WatchingSlot r k) (OfResourceWatching h).
Proof. intros s. apply add_resource_watching_slot. Qed.

Lemma appends_add_resource_changing r k h w :
  appends w (add_resource_changing r k h w) (ChangingSlot r k) (OfResourceChanging h).
Proof. intros s. apply add_resource_changing_slot. Qed.

Lemma appends_add_sub_handler r h w :
  appends w (add_sub_handler r h w) (SubSlot r) (OfResourceChanging h).
Proof. intros s. apply add_sub_handler_slot. Qed.

Lemma unchanged_with_warnings ws w : unchanged w (with_warnings ws w).
Proof. intros s. apply slot_handlers_with_warnings. Qed.

(** Entering a decorator: the filters are checked, the registry is resolved. *)
Ltac enter_decorator :=
  cbn [new_ActivityHandler new_ResourceWatchingHandler new_ResourceChangingHandler
       arguments_as_passed];
  unfold mbind, M_bind; rw ?_warn_deprecated_filters_run;
  unfold get_default_registry, activity_handlers_append,
    resource_watching_handlers_append, resource_changing_handlers_append,
    registry_append, modify, mret, M_ret.

Ltac find_appended :=
  first [ apply appends_add_activity
        | eapply appends_after_warnings;
          first [ apply appends_add_resource_watching
                | apply appends_add_resource_changing
                | apply appends_add_sub_handler ] ].

Section effects.
Context `{Externals}.

Ltac finish_call :=
  split_and!;
  first [ reflexivity
        | by cbn
        | cbn; by rw app_nil_r
        | eexists; split; [ find_appended | by split_and! ] ].

Ltac finish_raise :=
  split_and!; cbn [fst snd];
  first [ reflexivity | by cbn | by eexists | apply unchanged_with_warnings ].

(** What a call does, whatever [generate_id] and [parse_field] are: it
    issues its deprecation warnings, leaves the context variables alone,
    and either returns its callback, having appended one handler for it to
    the list it was made for, or raises [LookupError] and appends nothing. *)
Lemma run_effect c w :
  issued_warnings (run c w).2 =
    issued_warnings w ++ deprecation_warnings (call_labels c) (call_annotations c)
  /\ handler_var (run c w).2 = handler_var w
  /\ subregistry_var (run c w).2 = subregistry_var w
  /\ match call_slot c w with
     | Some target =>
         (run c w).1 = inr (call_fn c)
         /\ exists h, appends w (run c w).2 target h
                      /\ handler_fn h = call_fn c
                      /\ handler_backoff h = call_backoff c
                      /\ handler_cooldown h = call_cooldown c
     | None =>
         (exists v, (run c w).1 = inl (LookupError v))
         /\ unchanged w (run c w).2
     end.
Proof.
  destruct c;
    cbn [run call_slot call_fn call_backoff call_cooldown call_labels call_annotations].
  - unfold startup. enter_decorator. destruct registry; cbn [fst snd]; finish_call.
  - unfold cleanup. enter_decorator. destruct registry; cbn [fst snd]; finish_call.
  - unfold login. enter_decorator. destruct registry; cbn [fst snd]; finish_call.
  - unfold probe. enter_decorator. destruct registry; cbn [fst snd]; finish_call.
  - unfold resume. enter_decorator. destruct k, registry; cbn [fst snd]; finish_call.
  - unfold create. enter_decorator. destruct k, registry; cbn [fst snd]; finish_call.
  - unfold update. enter_decorator. destruct k, registry; cbn [fst snd]; finish_call.
  - unfold delete. enter_decorator. destruct k, registry; cbn [fst snd]; finish_call.
  - unfold field. enter_decorator. destruct k, registry; cbn [fst snd]; finish_call.
  - unfold event. enter_decorator. destruct k, registry; cbn [fst snd]; finish_call.
  - unfold this. enter_decorator. unfold handler_var_get, subregistry_var_get.
    destruct (handler_var w) as [parent|] eqn:Hparent, registry as [registry|],
      (subregistry_var w) as [current|] eqn:Hcurrent;
      cbn [handler_var subregistry_var with_warnings]; rw ?Hparent ?Hcurrent;
      cbn [fst snd fmap option_fmap option_map];
      first [ finish_call | finish_raise ].
  - unfold register, this. enter_decorator. unfold handler_var_get, subregistry_var_get.
    destruct (handler_var w) as [parent|] eqn:Hparent, registry as [registry|],
      (subregistry_var w) as [current|] eqn:Hcurrent;
      cbn [handler_var subregistry_var with_warnings]; rw ?Hparent ?Hcurrent;
      cbn [fst snd fmap option_fmap option_map];
      first [ finish_call | finish_raise ].
Qed.

End effects.

(** *** The typed lists behind a slot *)

#[global] Instance OfActivity_inj : Inj (=) (=) OfActivity.
Proof. by intros ?? [=]. Qed.

#[global] Instance OfResourceWatching_inj : Inj (=) (=) OfResourceWatching.
Proof. by intros ?? [=]. Qed.

#[global] Instance OfResourceChanging_inj : Inj (=) (=) OfResourceChanging.
Proof. by intros ?? [=]. Qed.


Lemma appends_watching_at w w' r k h :
  appends w w' (WatchingSlot r k) (OfResourceWatching h) ->
  watching_at w' r k = watching_at w r k ++ [h].
Proof.
  intros Happ. specialize (Happ (WatchingSlot r k)). rw decide_True // in Happ.
  apply (inj (fmap OfResourceWatching)). by rw fmap_app.
Qed.

Lemma appends_changing_at w w' r k h :
  appends w w' (ChangingSlot r k) (OfResourceChanging h) ->
  changing_at w' r k = changing_at w r k ++ [h].
Proof.
  intros Happ. specialize (Happ (ChangingSlot r k)). rw decide_True // in Happ.
  apply (inj (fmap OfResourceChanging)). by rw fmap_app.
Qed.


Lemma appends_elsewhere w w' target h s :
  appends w w' target h -> s <> target -> slot_handlers w' s = slot_handlers w s.
Proof. intros Happ Hne. rw (Happ s). rw decide_False //. by rw app_nil_r. Qed.

Lemma appends_slot w w' target h :
  appends w w' target h -> slot_handlers w' target = slot_handlers w target ++ [h].
Proof. intros Happ. rw (Happ target). by rw decide_True. Qed.

Lemma deprecated_entries_pos m : uses_none m -> 1 <= deprecated_entries m.
Proof.
  intros (m' & key & -> & Hkey). unfold deprecated_entries.
  assert ((key, MetaNone) ∈ filter (fun kv : string * MetaFilterValue => kv.2 = MetaNone)
                             (map_to_list m')) as Hin.
  { apply list_elem_of_filter. split; [done|]. by apply elem_of_map_to_list. }
  destruct (filter _ _); [by apply elem_of_nil in Hin | simpl; lia].
Qed.

Lemma call_slot_ext c w w' :
  handler_var w' = handler_var w -> subregistry_var w' = subregistry_var w ->
  call_slot c w' = call_slot c w.
Proof. intros Hvar Hsub. destruct c; cbn [call_slot]; by rw ?Hvar ?Hsub. Qed.

(** ** The properties *)

Section properties.
Context `{Externals}.

(** C10.  [register(fn, ...)] is [this(...)] applied to [fn]: for all
    arguments and in every world the two give the same result, raise the
    same exception and leave the same world. *)
Theorem register_is_this_applied
    fn id errors timeout retries backoff cooldown registry labels annotations when w :
  register fn id errors timeout retries backoff cooldown registry labels annotations when w =
  this id errors timeout retries backoff cooldown registry labels annotations when fn w.
Proof. reflexivity. Qed.

(** C8.  Every entry point hands back the callback it was given, as it is:
    the ten static ones in every world and for all arguments, and [this]
    and [register] whenever they return at all, which they do unless a
    context variable they read is not set. *)
Theorem entry_points_return_callback c w :
  (run c w).1 = expected_outcome c w.
Proof.
  destruct c; cbn [run expected_outcome call_fn].
  - unfold startup. enter_decorator. by destruct registry.
  - unfold cleanup. enter_decorator. by destruct registry.
  - unfold login. enter_decorator. by destruct registry.
  - unfold probe. enter_decorator. by destruct registry.
  - unfold resume. enter_decorator. by destruct registry.
  - unfold create. enter_decorator. by destruct registry.
  - unfold update. enter_decorator. by destruct registry.
  - unfold delete. enter_decorator. by destruct registry.
  - unfold field. enter_decorator. by destruct registry.
  - unfold event. enter_decorator. by destruct registry.
  - unfold this. enter_decorator. unfold handler_var_get, subregistry_var_get.
    cbn [handler_var subregistry_var with_warnings].
    destruct (handler_var w), registry; try done.
    cbn [handler_var subregistry_var with_warnings].
    by destruct (subregistry_var w).
  - unfold register, this. enter_decorator. unfold handler_var_get, subregistry_var_get.
    cbn [handler_var subregistry_var with_warnings].
    destruct (handler_var w), registry; try done.
    cbn [handler_var subregistry_var with_warnings].
    by destruct (subregistry_var w).
Qed.

(** C9.  [event] returns its callback and appends one handler to the
    resource-watching list of its resource; that handler has no errors
    mode, timeout, retries, backoff or cooldown, and no resource-changing
    list, activity list or sub-registry changes. *)
Theorem event_has_no_policy group version plural id registry labels annotations when fn w :
  let real_registry := default DefaultRegistry registry in
  let real_resource := {| group := group; version := version; plural := plural |} in
  let w' := (event group version plural id registry labels annotations when fn w).2 in
  exists h,
    watching_at w' real_registry real_resource =
      watching_at w real_registry real_resource ++ [h]
    /\ ResourceWatchingHandler.fn h = fn
    /\ ResourceWatchingHandler.errors h = None
    /\ ResourceWatchingHandler.timeout h = None
    /\ ResourceWatchingHandler.retries h = None
    /\ ResourceWatchingHandler.backoff h = None
    /\ ResourceWatchingHandler.cooldown h = None
    /\ (forall r k, changing_at w' r k = changing_at w r k)
    /\ (forall r, activities_at w' r = activities_at w r)
    /\ (forall s, subregistry_at w' s = subregistry_at w s).
Proof.
  intros real_registry real_resource w'. subst w'.
  unfold event. enter_decorator.
  assert (forall h0 : ResourceWatchingHandler.t,
    let w' := add_resource_watching real_registry real_resource h0
                (with_warnings (deprecation_warnings labels annotations) w) in
    watching_at w' real_registry real_resource =
      watching_at w real_registry real_resource ++ [h0]
    /\ (forall r k, changing_at w' r k = changing_at w r k)
    /\ (forall r, activities_at w' r = activities_at w r)
    /\ (forall s, subregistry_at w' s = subregistry_at w s)) as Hworld.
  { intros h0 w'.
    assert (appends w w' (WatchingSlot real_registry real_resource)
              (OfResourceWatching h0)) as Happ by (subst w'; find_appended).
    split_and!.
    - by apply appends_watching_at.
    - intros r k. apply (inj (fmap OfResourceChanging)).
      by apply (appends_elsewhere _ _ _ _ (ChangingSlot r k) Happ).
    - intros r. apply (inj (fmap OfActivity)).
      by apply (appends_elsewhere _ _ _ _ (ActivitySlot r) Happ).
    - intros s. apply (inj (fmap OfResourceChanging)).
      by apply (appends_elsewhere _ _ _ _ (SubSlot s) Happ). }
  subst real_registry real_resource.
  destruct registry as [registry|]; cbn [fst snd default from_option];
    (eexists; split_and!; [apply Hworld | reflexivity .. | apply Hworld | apply Hworld | apply Hworld]).
Qed.

(** C3.  [delete] returns its callback and appends one handler to the
    resource-changing list of its resource; the handler's finalizer flag is
    true when [optional] is not given, false when [optional] is true (and
    true when it is false): [bool(not optional)]. *)
Theorem delete_requires_finalizer
    group version plural id errors timeout retries backoff cooldown registry optional
    labels annotations when fn w :
  let real_registry := default DefaultRegistry registry in
  let real_resource := {| group := group; version := version; plural := plural |} in
  let w' := (delete group version plural id errors timeout retries backoff cooldown
               registry optional labels annotations when fn w).2 in
  exists h,
    changing_at w' real_registry real_resource =
      changing_at w real_registry real_resource ++ [h]
    /\ ResourceChangingHandler.fn h = fn
    /\ ResourceChangingHandler.reason h = Some DELETE
    /\ ResourceChangingHandler.requires_finalizer h =
         match optional with
         | None => Some true
         | Some true => Some false
         | Some false => Some true
         end.
Proof.
  intros real_registry real_resource w'. subst real_registry real_resource w'.
  unfold delete. enter_decorator.
  destruct registry as [registry|]; cbn [fst snd default from_option];
    (eexists; split_and!;
     [ apply appends_changing_at; find_appended
     | reflexivity
     | reflexivity
     | by destruct optional as [[]|] ]).
Qed.

(** C6.  After any sequence of calls, every list of every registry (the
    activity list, the two lists of each resource, each sub-registry) is
    what it was before, followed by one handler for each call of the
    sequence that was made for that list, in the order of the calls:
    nothing is removed, edited or put anywhere but at the end. *)
Theorem registration_keeps_call_order cs w s :
  exists added,
    slot_handlers (run_all cs w) s = slot_handlers w s ++ added
    /\ handler_fn <$> added =
         call_fn <$> filter (fun c => call_slot c w = Some s) cs.
Proof.
  revert w. induction cs as [|c cs IH]; intros w.
  - exists []. by rw app_nil_r.
  - cbn [run_all].
    destruct (run_effect c w) as (_ & Hvar & Hsub & Hout).
    destruct (IH (run c w).2) as (added & Hlist & Hfns).
    assert (filter (fun c' => call_slot c' (run c w).2 = Some s) cs =
            filter (fun c' => call_slot c' w = Some s) cs) as Hsame.
    { apply list_filter_iff. intros c'. by rw (call_slot_ext c' w (run c w).2). }
    rw Hsame in Hfns. rw Hlist.
    destruct (call_slot c w) as [target|] eqn:Hslot.
    + destruct Hout as (_ & h & Happ & Hfn & _). rw (Happ s).
      destruct (decide (s = target)) as [->|Hne].
      * exists (h :: added). rw filter_cons_True //.
        split; [by rw -app_assoc|]. rw !fmap_cons. by rw Hfn Hfns.
      * exists added. rw filter_cons_False; [|rw Hslot; congruence].
        split; [by rw app_nil_r|done].
    + destruct Hout as (_ & Hsame'). rw (Hsame' s).
      exists added. rw filter_cons_False; [done | by rw Hslot].
Qed.

(** C1, as amended.  Outside any execution context, with no handler being
    executed and no sub-registry, [this] and [register] raise [LookupError]
    and append nothing.  [field] with an empty field path does not raise:
    it returns its callback and appends a handler with no field, whose id
    is derived with an empty suffix. *)
Theorem usage_errors
    id errors timeout retries backoff cooldown labels annotations when fn
    group version plural field_ id' errors' timeout' retries' backoff' cooldown' registry
    labels' annotations' when' fn' w :
  handler_var w = None \/ handler_var w = Some None ->
  subregistry_var w = None ->
  parse_field field_ = [] ->
  let dynamic :=
    this id errors timeout retries backoff cooldown None labels annotations when fn w in
  let registered :=
    register fn id errors timeout retries backoff cooldown None labels annotations when w in
  let static :=
    field group version plural field_ id' errors' timeout' retries' backoff' cooldown'
      registry labels' annotations' when' fn' w in
  let real_registry := default DefaultRegistry registry in
  let real_resource := {| group := group; version := version; plural := plural |} in
  ((exists v, dynamic.1 = inl (LookupError v)) /\ unchanged w dynamic.2)
  /\ ((exists v, registered.1 = inl (LookupError v)) /\ unchanged w registered.2)
  /\ static.1 = inr fn'
  /\ exists h,
       changing_at static.2 real_registry real_resource =
         changing_at w real_registry real_resource ++ [h]
       /\ ResourceChangingHandler.fn h = fn'
       /\ ResourceChangingHandler.field h = None
       /\ ResourceChangingHandler.id h = generate_id fn' id' None (Some "").
Proof.
  intros Hvar Hsub Hpath dynamic registered static real_registry real_resource.
  assert ((exists v, dynamic.1 = inl (LookupError v)) /\ unchanged w dynamic.2) as Hdyn.
  { pose proof (run_effect
      (CallThis id {| policy_errors := errors; policy_timeout := timeout;
                      policy_retries := retries; policy_backoff := backoff;
                      policy_cooldown := cooldown |} None
                {| filter_labels := labels; filter_annotations := annotations;
                   filter_when := when |} fn) w) as (_ & _ & _ & Hout).
    cbn [call_slot] in Hout. rw Hsub in Hout.
    by destruct Hvar as [Hvar|Hvar]; rw Hvar in Hout. }
  split_and!; [apply Hdyn | apply Hdyn | apply Hdyn | apply Hdyn | |].
  - subst static. unfold field. enter_decorator. by destruct registry.
  - subst static real_registry real_resource. unfold field. enter_decorator.
    rw Hpath.
    destruct registry as [registry|]; cbn [fst snd default from_option];
      (eexists; split_and!; [apply appends_changing_at; find_appended | reflexivity ..]).
Qed.

End properties.



(** ** With the helpers of the specification *)

Example split_on_dotted : split_on "." "spec.size" = ["spec"; "size"].
Proof. reflexivity. Qed.

Example split_on_empty : split_on "." "" = [""].
Proof. reflexivity. Qed.

Example split_on_trailing : split_on "." "a..b." = ["a"; ""; "b"; ""].
Proof. reflexivity. Qed.

Example generate_id_spec_nested :
  generate_id_spec (fun id => id) make (Some "task_abc") (Some "create") None =
  "create/task_abc".
Proof. reflexivity. Qed.

Example generate_id_spec_empty_suffix :
  generate_id_spec (fun id => id) resize None None (Some "") = "resize".
Proof. reflexivity. Qed.

(** [startup(id="a")] then [cleanup(id="b")]: the activity list is [a, b]. *)
Example startup_then_cleanup :
  (fun a => (ActivityHandler.id a, ActivityHandler.activity a)) <$>
    activities_at
      (run_all (H := plain_externals)
         [CallStartup (Some "a") no_policy None make;
          CallCleanup (Some "b") no_policy None resize] empty_world)
      DefaultRegistry =
  [("a", STARTUP); ("b", CLEANUP)].
Proof. vm_compute. reflexivity. Qed.

(** A dynamic call made while [parent] is executed appends a handler whose
    id is the parent's id, "/", and the base id of the call. *)
Lemma dynamic_call_id canonical c w parent target :
  is_dynamic c = true ->
  handler_var w = Some (Some parent) ->
  call_slot c w = Some target ->
  exists h,
    slot_handlers (run (H := spec_externals canonical) c w).2 target =
      slot_handlers w target ++ [h]
    /\ handler_id h =
         handler_id parent +:+ "/" +:+
         match call_id c with
         | Some id => canonical id
         | None => declared_name (call_fn c)
         end.
Proof.
  intros Hdyn Hvar Hslot.
  destruct c; try discriminate Hdyn; cbn [call_slot] in Hslot; rw Hvar in Hslot;
    cbn [run call_id call_fn]; unfold register, this; enter_decorator;
    unfold handler_var_get, subregistry_var_get;
    cbn [handler_var subregistry_var with_warnings]; rw Hvar.
  all: destruct registry as [registry|];
    [|destruct (subregistry_var w) as [current|] eqn:Hcurrent; [|discriminate Hslot]];
    cbn [handler_var subregistry_var with_warnings]; rw ?Hcurrent;
    cbn [fmap option_fmap option_map] in Hslot; injection Hslot as <-;
    cbn [fst snd];
    (eexists; split; [apply appends_slot; find_appended | reflexivity]).
Qed.

(** C4.  Two dynamic calls ([this] or [register]) made while the same
    parent handler is executed, with the same explicit id or, without one,
    callbacks of the same name, each append a handler to their
    sub-registry; the id of each begins with the parent's id followed by
    "/", and the two ids are equal. *)
Theorem sub_handler_id_hierarchy canonical c1 c2 w1 w2 parent target1 target2 :
  is_dynamic c1 = true -> is_dynamic c2 = true ->
  handler_var w1 = Some (Some parent) -> handler_var w2 = Some (Some parent) ->
  call_slot c1 w1 = Some target1 -> call_slot c2 w2 = Some target2 ->
  call_id c1 = call_id c2 ->
  (call_id c1 = None -> declared_name (call_fn c1) = declared_name (call_fn c2)) ->
  exists h1 h2 rest,
    slot_handlers (run (H := spec_externals canonical) c1 w1).2 target1 =
      slot_handlers w1 target1 ++ [h1]
    /\ slot_handlers (run (H := spec_externals canonical) c2 w2).2 target2 =
         slot_handlers w2 target2 ++ [h2]
    /\ handler_id h1 = handler_id parent +:+ "/" +:+ rest
    /\ handler_id h2 = handler_id parent +:+ "/" +:+ rest
    /\ handler_id h1 = handler_id h2.
Proof.
  intros Hdyn1 Hdyn2 Hvar1 Hvar2 Hslot1 Hslot2 Hid Hname.
  destruct (dynamic_call_id canonical c1 w1 parent target1 Hdyn1 Hvar1 Hslot1)
    as (h1 & Hlist1 & Hid1).
  destruct (dynamic_call_id canonical c2 w2 parent target2 Hdyn2 Hvar2 Hslot2)
    as (h2 & Hlist2 & Hid2).
  assert (handler_id h2 = handler_id h1) as Hsame.
  { rw Hid1 Hid2. rw -Hid. destruct (call_id c1); [done|]. by rw Hname. }
  exists h1, h2. eexists. split_and!; [done | done | exact Hid1 | by rw Hsame | done].
Qed.

Lemma sub_handler_id_hierarchy_witness :
  let parent :=
    OfResourceChanging
      {| ResourceChangingHandler.fn := make; ResourceChangingHandler.id := "make";
         ResourceChangingHandler.field := None;
         ResourceChangingHandler.errors := None; ResourceChangingHandler.timeout := None;
         ResourceChangingHandler.retries := None; ResourceChangingHandler.backoff := None;
         ResourceChangingHandler.cooldown := None; ResourceChangingHandler.labels := None;
         ResourceChangingHandler.annotations := None; ResourceChangingHandler.when := None;
         ResourceChangingHandler.initial := None; ResourceChangingHandler.deleted := None;
         ResourceChangingHandler.requires_finalizer := None;
         ResourceChangingHandler.reason := Some CREATE |} in
  let first_run :=
    {| operator_registries := ∅; changing_registries := ∅;
       handler_var := Some (Some parent); subregistry_var := Some 7;
       issued_warnings := [] |} in
  let second_run :=
    {| operator_registries := ∅; changing_registries := ∅;
       handler_var := Some (Some parent); subregistry_var := Some 8;
       issued_warnings := [] |} in
  let c1 := CallThis (Some "task_abc") no_policy None no_filters resize in
  let c2 := CallRegister make (Some "task_abc") no_policy None no_filters in
  exists h1 h2 rest,
    slot_handlers (run (H := plain_externals) c1 first_run).2 (SubSlot 7) =
      slot_handlers first_run (SubSlot 7) ++ [h1]
    /\ slot_handlers (run (H := plain_externals) c2 second_run).2 (SubSlot 8) =
         slot_handlers second_run (SubSlot 8) ++ [h2]
    /\ handler_id h1 = handler_id parent +:+ "/" +:+ rest
    /\ handler_id h2 = handler_id parent +:+ "/" +:+ rest
    /\ handler_id h1 = handler_id h2.
Proof.
  intros parent first_run second_run c1 c2.
  apply (sub_handler_id_hierarchy (fun id => id) c1 c2 first_run second_run parent);
    try reflexivity.
  intros Hnone. discriminate Hnone.
Defined.

(** C2.  [create("acme.io", "v1", "widgets")] on a function named [make],
    then [field("acme.io", "v1", "widgets", "spec.size")] on a function
    named [resize], both without an explicit id and on the same registry,
    whose list for that resource was empty: the list then holds exactly two
    handlers, with ids "make" and "resize/spec.size", in that order, the
    first with reason [CREATE] and the second with none. *)
Theorem scenario_make_then_resize canonical registry fn_make fn_resize w :
  declared_name fn_make = "make" ->
  declared_name fn_resize = "resize" ->
  changing_at w (default DefaultRegistry registry) widgets = [] ->
  let w1 :=
    (create (H := spec_externals canonical) "acme.io" "v1" "widgets"
       None None None None None None registry None None None fn_make w).2 in
  let w2 :=
    (field (H := spec_externals canonical) "acme.io" "v1" "widgets"
       (FieldString "spec.size")
       None None None None None None registry None None None fn_resize w1).2 in
  exists h1 h2,
    changing_at w2 (default DefaultRegistry registry) widgets = [h1; h2]
    /\ ResourceChangingHandler.fn h1 = fn_make
    /\ ResourceChangingHandler.fn h2 = fn_resize
    /\ ResourceChangingHandler.id h1 = "make"
    /\ ResourceChangingHandler.id h2 = "resize/spec.size"
    /\ ResourceChangingHandler.reason h1 = Some CREATE
    /\ ResourceChangingHandler.reason h2 = None.
Proof.
  intros Hmake Hresize Hempty w1 w2. subst w1 w2.
  unfold create, field. enter_decorator.
  destruct registry as [registry|]; cbn [fst snd default from_option] in *;
    (eexists _, _; split_and!;
     [ erewrite appends_changing_at; [|find_appended];
       erewrite appends_changing_at; [|find_appended];
       rw Hempty; reflexivity
     | reflexivity
     | reflexivity
     | cbn; exact Hmake
     | cbn; by rw Hresize
     | reflexivity
     | reflexivity ]).
Qed.

Lemma scenario_make_then_resize_witness :
  let w1 :=
    (create (H := plain_externals) "acme.io" "v1" "widgets"
       None None None None None None None None None None make empty_world).2 in
  let w2 :=
    (field (H := plain_externals) "acme.io" "v1" "widgets" (FieldString "spec.size")
       None None None None None None None None None None resize w1).2 in
  exists h1 h2,
    changing_at w2 DefaultRegistry widgets = [h1; h2]
    /\ ResourceChangingHandler.fn h1 = make
    /\ ResourceChangingHandler.fn h2 = resize
    /\ ResourceChangingHandler.id h1 = "make"
    /\ ResourceChangingHandler.id h2 = "resize/spec.size"
    /\ ResourceChangingHandler.reason h1 = Some CREATE
    /\ ResourceChangingHandler.reason h2 = None.
Proof.
  apply (scenario_make_then_resize (fun id => id) None make resize empty_world);
    reflexivity.
Defined.

(** [field] with an empty sequence as its field path, on a world where
    nothing is registered: no exception, the callback is returned, and a
    handler with no field and the plain id is registered. *)
Lemma field_with_empty_path_registers :
  let out :=
    field (H := plain_externals) "acme.io" "v1" "widgets" (FieldSequence [])
      None None None None None None None None None None resize empty_world in
  out.1 = inr resize
  /\ ~ (exists e, out.1 = inl e)
  /\ exists h,
       changing_at out.2 DefaultRegistry widgets = [h]
       /\ ResourceChangingHandler.field h = None
       /\ ResourceChangingHandler.id h = "resize".
Proof.
  split_and!.
  - reflexivity.
  - intros [e He]. discriminate He.
  - eexists. split_and!; [vm_compute; reflexivity | reflexivity | reflexivity].
Qed.

Lemma usage_errors_witness :
  let dynamic :=
    this (H := plain_externals) None None None None None None None None None None
      make empty_world in
  let registered :=
    register (H := plain_externals) make None None None None None None None None None None
      empty_world in
  let static :=
    field (H := plain_externals) "acme.io" "v1" "widgets" (FieldSequence [])
      None None None None None None None None None None resize empty_world in
  ((exists v, dynamic.1 = inl (LookupError v)) /\ unchanged empty_world dynamic.2)
  /\ ((exists v, registered.1 = inl (LookupError v)) /\ unchanged empty_world registered.2)
  /\ static.1 = inr resize
  /\ exists h,
       changing_at static.2 DefaultRegistry widgets =
         changing_at empty_world DefaultRegistry widgets ++ [h]
       /\ ResourceChangingHandler.fn h = resize
       /\ ResourceChangingHandler.field h = None
       /\ ResourceChangingHandler.id h =
            generate_id (Externals := plain_externals) resize None None (Some "").
Proof.
  apply (usage_errors (H := plain_externals)
           None None None None None None None None None make
           "acme.io" "v1" "widgets" (FieldSequence [])
           None None None None None None None None None None resize empty_world).
  - left. reflexivity.
  - reflexivity.
  - reflexivity.
Defined.


(** ** More on the decorators

    Properties of on.py beyond the ones above, for every implementation of
    the helpers. *)

Section descriptors.
Context `{Externals}.

(** The handler a call appends depends on the call and on the context
    variables only: in every world with the same context the call appends
    the same handler, which carries the options of the call as given. *)
Lemma run_descriptor c w target :
  call_slot c w = Some target ->
  exists h,
    (forall w', handler_var w' = handler_var w ->
                subregistry_var w' = subregistry_var w ->
                appends w' (run c w').2 target h)
    /\ handler_fn h = call_fn c
    /\ handler_errors h = call_errors c
    /\ handler_timeout h = call_timeout c
    /\ handler_retries h = call_retries c
    /\ handler_backoff h = call_backoff c
    /\ handler_cooldown h = call_cooldown c
    /\ handler_labels h = call_labels c
    /\ handler_annotations h = call_annotations c
    /\ handler_when h = call_when c.
Proof.
  intros Hslot. destruct c; cbn [call_slot] in Hslot.
  11, 12: destruct (handler_var w) as [parent|] eqn:Hparent; [|discriminate Hslot];
    assert (exists s, target = SubSlot s /\
              match registry with Some r => Some r | None => subregistry_var w end = Some s)
      as (s & -> & Hs)
      by (destruct (match registry with Some r => Some r | None => subregistry_var w end);
          [injection Hslot as <-; by eexists | discriminate Hslot]);
    eexists; split;
    [ intros w' Hvar Hsub; cbn [run]; unfold register, this; enter_decorator;
      unfold handler_var_get, subregistry_var_get;
      cbn [handler_var subregistry_var with_warnings]; rw Hvar ?Hparent;
      destruct registry as [registry|];
      [ injection Hs as ->
      | cbn [handler_var subregistry_var with_warnings]; rw Hsub Hs ];
      cbn [fst snd]; find_appended
    | by split_and! ].
  all: injection Hslot as <-; destruct registry as [registry|];
    try match goal with k : Resource |- _ => destruct k end;
    (eexists; split;
     [ intros w' _ _; cbn [run];
       unfold startup, cleanup, login, probe, resume, create, update, delete, field, event;
       enter_decorator; cbn [fst snd]; find_appended
     | by split_and! ]).
Qed.

End descriptors.

Lemma deprecated_entries_zero m : deprecated_entries m = 0 <-> ~ uses_none m.
Proof.
  split.
  - intros Hzero Huses. apply deprecated_entries_pos in Huses. lia.
  - intros Hnone. destruct m as [m|]; [|done]. unfold deprecated_entries.
    destruct (filter _ _) as [|[key val] rest] eqn:Hfilter; [done|].
    exfalso. apply Hnone. exists m, key. split; [done|].
    assert ((key, val) ∈ filter (fun kv : string * MetaFilterValue => kv.2 = MetaNone)
                           (map_to_list m)) as Hin by (rw Hfilter; left).
    apply list_elem_of_filter in Hin as [Hval Hin]. simpl in Hval. subst val.
    by apply elem_of_map_to_list.
Qed.

Lemma with_warnings_same ws w : with_warnings ws w = w <-> ws = [].
Proof.
  split.
  - intros Hsame. apply (f_equal issued_warnings) in Hsame. simpl in Hsame.
    apply (app_inv_head (issued_warnings w)). by rw app_nil_r.
  - intros ->. apply with_warnings_nil.
Qed.

Section more_properties.
Context `{Externals}.

(** What a call adds to each list, the same in every world with the same
    context: nothing, or one handler at the end of the list the call is
    made for. *)
Lemma run_adds c w :
  exists hs,
    forall w', handler_var w' = handler_var w ->
               subregistry_var w' = subregistry_var w ->
               forall s, slot_handlers (run c w').2 s =
                         slot_handlers w' s ++
                         if decide (call_slot c w = Some s) then hs else [].
Proof.
  destruct (call_slot c w) as [target|] eqn:Hslot.
  - destruct (run_descriptor c w target Hslot) as (h & Happ & _).
    exists [h]. intros w' Hvar Hsub s. rw (Happ w' Hvar Hsub s).
    repeat case_decide; simplify_eq; done.
  - exists []. intros w' Hvar Hsub s.
    destruct (run_effect c w') as (_ & _ & _ & Hout).
    rw (call_slot_ext c w w' Hvar Hsub) in Hout. rw Hslot in Hout.
    destruct Hout as [_ Hsame]. rw (Hsame s).
    destruct (decide _); by rw app_nil_r.
Qed.

(** The handler a call appends carries the options of the call exactly as
    they were given: the errors mode, timeout and retries, and the labels,
    annotations and [when] filter; a filter with [None] values is stored
    with them. *)
Theorem options_stored_as_given c w target :
  call_slot c w = Some target ->
  exists h,
    slot_handlers (run c w).2 target = slot_handlers w target ++ [h]
    /\ handler_fn h = call_fn c
    /\ handler_errors h = call_errors c
    /\ handler_timeout h = call_timeout c
    /\ handler_retries h = call_retries c
    /\ handler_labels h = call_labels c
    /\ handler_annotations h = call_annotations c
    /\ handler_when h = call_when c.
Proof.
  intros Hslot.
  destruct (run_descriptor c w target Hslot)
    as (h & Happ & Hfn & He & Ht & Hr & _ & _ & Hl & Ha & Hw).
  exists h. split_and!; try done.
  apply appends_slot. by apply Happ.
Qed.

(** Nothing is deduplicated: a call made twice appends the same handler
    twice. *)
Theorem repeated_call_appends_again c w target :
  call_slot c w = Some target ->
  exists h,
    slot_handlers (run_all [c; c] w) target = slot_handlers w target ++ [h; h]
    /\ handler_fn h = call_fn c.
Proof.
  intros Hslot.
  destruct (run_descriptor c w target Hslot) as (h & Happ & Hfn & _).
  destruct (run_effect c w) as (_ & Hvar & Hsub & _).
  exists h. split; [|done]. cbn [run_all].
  rw (appends_slot _ _ _ _ (Happ (run c w).2 Hvar Hsub)).
  rw (appends_slot _ _ _ _ (Happ w eq_refl eq_refl)).
  by rw -app_assoc.
Qed.

(** A call changes no list but the one it is made for: other registries,
    other resources and the other indices of the same registry keep their
    handlers. *)
Theorem call_changes_only_its_list c w s :
  call_slot c w <> Some s ->
  slot_handlers (run c w).2 s = slot_handlers w s.
Proof.
  intros Hother. destruct (run_effect c w) as (_ & _ & _ & Hout).
  destruct (call_slot c w) as [target|].
  - destruct Hout as (_ & h & Happ & _).
    apply (appends_elsewhere _ _ _ _ _ Happ). congruence.
  - destruct Hout as [_ Hsame]. apply Hsame.
Qed.

(** Two calls made for different lists can be made in either order: every
    list ends up the same. *)
Theorem calls_for_different_lists_commute c1 c2 w s :
  call_slot c1 w <> call_slot c2 w ->
  slot_handlers (run_all [c1; c2] w) s = slot_handlers (run_all [c2; c1] w) s.
Proof.
  intros Hdiff.
  destruct (run_adds c1 w) as (hs1 & Hadd1), (run_adds c2 w) as (hs2 & Hadd2).
  destruct (run_effect c1 w) as (_ & Hvar1 & Hsub1 & _).
  destruct (run_effect c2 w) as (_ & Hvar2 & Hsub2 & _).
  cbn [run_all].
  rw (Hadd2 (run c1 w).2 Hvar1 Hsub1 s). rw (Hadd1 w eq_refl eq_refl s).
  rw (Hadd1 (run c2 w).2 Hvar2 Hsub2 s). rw (Hadd2 w eq_refl eq_refl s).
  repeat case_decide; rw ?app_nil_r //. congruence.
Qed.

(** The static entry points neither read nor write the execution context:
    called while a handler is executed they do exactly what they do
    outside, to the same registry. *)
Theorem static_calls_ignore_context c current sub w :
  is_dynamic c = false ->
  run c (with_context current sub w) =
  ((run c w).1, with_context current sub (run c w).2).
Proof.
  intros Hstatic. destruct c; try discriminate Hstatic; cbn [run];
    unfold startup, cleanup, login, probe, resume, create, update, delete, field, event;
    enter_decorator; by destruct registry.
Qed.

(** [_warn_deprecated_filters] never raises and touches no registry and no
    context variable; it leaves the world as it is exactly when neither
    filter has an entry with value [None]. *)
Theorem warn_deprecated_filters_silent labels annotations w :
  let out := _warn_deprecated_filters labels annotations w in
  out.1 = inr tt
  /\ unchanged w out.2
  /\ handler_var out.2 = handler_var w
  /\ subregistry_var out.2 = subregistry_var w
  /\ (out.2 = w <-> ~ uses_none labels /\ ~ uses_none annotations).
Proof.
  intros out. subst out. rw _warn_deprecated_filters_run. cbn [fst snd].
  split; [done|]. split; [apply unchanged_with_warnings|].
  split; [done|]. split; [done|].
  rw with_warnings_same. unfold deprecation_warnings.
  rw -!deprecated_entries_zero. split.
  - intros [Hl Ha]%app_eq_nil.
    by destruct (deprecated_entries labels), (deprecated_entries annotations).
  - by intros [-> ->].
Qed.

End more_properties.

Section entry_points.
Context `{Externals}.




End entry_points.

Section sequences.
Context `{Externals}.

(** No sequence of calls sets or resets the context variables. *)
Theorem registration_keeps_context cs w :
  handler_var (run_all cs w) = handler_var w
  /\ subregistry_var (run_all cs w) = subregistry_var w.
Proof.
  revert w. induction cs as [|c cs IH]; intros w; [done|].
  cbn [run_all]. destruct (IH (run c w).2) as [-> ->].
  by destruct (run_effect c w) as (_ & -> & -> & _).
Qed.

(** A dynamic call that finds no current handler, or neither a given
    registry nor a sub-registry in the context, raises [LookupError] and
    leaves the world as it was but for its deprecation warnings.  With
    [handler_var] not set this is so even when a registry is given. *)
Theorem failed_dynamic_call_only_warns c w :
  call_slot c w = None ->
  (exists v, (run c w).1 = inl (LookupError v))
  /\ (run c w).2 =
       with_warnings (deprecation_warnings (call_labels c) (call_annotations c)) w.
Proof.
  intros Hslot.
  destruct c; try discriminate Hslot; cbn [call_slot] in Hslot;
    cbn [run call_labels call_annotations]; unfold register, this; enter_decorator;
    unfold handler_var_get, subregistry_var_get;
    cbn [handler_var subregistry_var with_warnings].
  all: destruct (handler_var w) as [parent|]; [|by split; [eexists|]].
  all: destruct registry as [registry|]; [discriminate Hslot|].
  all: cbn [handler_var subregistry_var with_warnings].
  all: destruct (subregistry_var w) as [current|]; [discriminate Hslot|].
  all: by split; [eexists|].
Qed.

End sequences.

(** *** The properties above at concrete calls *)

Lemma options_stored_as_given_witness :
  exists h,
    slot_handlers
      (run (H := plain_externals)
         (CallCreate widgets None no_policy None with_none_labels make) empty_world).2
      (ChangingSlot DefaultRegistry widgets) =
      slot_handlers empty_world (ChangingSlot DefaultRegistry widgets) ++ [h]
    /\ handler_fn h = make
    /\ handler_errors h = None
    /\ handler_timeout h = None
    /\ handler_retries h = None
    /\ handler_labels h = Some {[ "app" := MetaNone ]}
    /\ handler_annotations h = None
    /\ handler_when h = Some resize.
Proof.
  exact (options_stored_as_given (H := plain_externals)
           (CallCreate widgets None no_policy None with_none_labels make) empty_world
           (ChangingSlot DefaultRegistry widgets) eq_refl).
Defined.

Lemma repeated_call_appends_again_witness :
  exists h,
    slot_handlers
      (run_all (H := plain_externals)
         [CallThis (Some "task") no_policy None no_filters resize;
          CallThis (Some "task") no_policy None no_filters resize] while_making)
      (SubSlot 7) =
      slot_handlers while_making (SubSlot 7) ++ [h; h]
    /\ handler_fn h = resize.
Proof.
  exact (repeated_call_appends_again (H := plain_externals)
           (CallThis (Some "task") no_policy None no_filters resize) while_making
           (SubSlot 7) eq_refl).
Defined.

Lemma call_changes_only_its_list_witness :
  slot_handlers
    (run (H := plain_externals)
       (CallCreate widgets None no_policy (Some (OwnRegistry 1)) no_filters make)
       empty_world).2
    (ChangingSlot DefaultRegistry widgets) =
  slot_handlers empty_world (ChangingSlot DefaultRegistry widgets).
Proof.
  apply (call_changes_only_its_list (H := plain_externals)
           (CallCreate widgets None no_policy (Some (OwnRegistry 1)) no_filters make)
           empty_world (ChangingSlot DefaultRegistry widgets)).
  discriminate.
Defined.

Lemma calls_for_different_lists_commute_witness :
  slot_handlers
    (run_all (H := plain_externals)
       [CallCreate widgets None no_policy None no_filters make;
        CallEvent widgets None None no_filters resize] empty_world)
    (WatchingSlot DefaultRegistry widgets) =
  slot_handlers
    (run_all (H := plain_externals)
       [CallEvent widgets None None no_filters resize;
        CallCreate widgets None no_policy None no_filters make] empty_world)
    (WatchingSlot DefaultRegistry widgets).
Proof.
  apply (calls_for_different_lists_commute (H := plain_externals)
           (CallCreate widgets None no_policy None no_filters make)
           (CallEvent widgets None None no_filters resize)
           empty_world (WatchingSlot DefaultRegistry widgets)).
  discriminate.
Defined.

Lemma static_calls_ignore_context_witness :
  run (H := plain_externals) (CallCreate widgets None no_policy None no_filters resize)
    (with_context (Some (Some (OfResourceChanging make_handler))) (Some 7) empty_world) =
  ((run (H := plain_externals) (CallCreate widgets None no_policy None no_filters resize)
      empty_world).1,
   with_context (Some (Some (OfResourceChanging make_handler))) (Some 7)
     (run (H := plain_externals) (CallCreate widgets None no_policy None no_filters resize)
        empty_world).2).
Proof.
  exact (static_calls_ignore_context (H := plain_externals)
           (CallCreate widgets None no_policy None no_filters resize)
           (Some (Some (OfResourceChanging make_handler))) (Some 7) empty_world eq_refl).
Defined.



Lemma failed_dynamic_call_only_warns_witness :
  let c := CallThis None no_policy (Some 9) with_none_labels resize in
  (exists v, (run (H := plain_externals) c empty_world).1 = inl (LookupError v))
  /\ (run (H := plain_externals) c empty_world).2 =
       with_warnings (deprecation_warnings (call_labels c) (call_annotations c)) empty_world.
Proof.
  exact (failed_dynamic_call_only_warns (H := plain_externals)
           (CallThis None no_policy (Some 9) with_none_labels resize) empty_world eq_refl).
Defined.

(** ** With the handler classes of the framework *)







Section framework.
Context `{Externals}.
Variables (refusal : string) (deprecation : Warning).






End framework.





(** Without a [cooldown] the initialiser of the framework does nothing:
    the call does what it does with the handler classes as plain records. *)
Lemma framework_agrees_without_cooldown `{Externals} refusal deprecation c w :
  call_cooldown c = None ->
  run (handler_classes := framework_handlers refusal deprecation) c w = run c w.
Proof.
  intros Hcooldown.
  destruct c; try destruct p as [e t r [b|] cd]; cbn [call_cooldown policy_cooldown] in Hcooldown;
    subst; reflexivity.
Qed.
